(** * cs_last2runs_validateoutput.py: a shallow embedding and its properties

    The script asks the CrowdStrike report-execution API for the executions
    of one scheduled report, keeps the two most recent ones, saves each
    finished execution as a spreadsheet, and writes the rows that one
    spreadsheet has and the other lacks.

    Python values are modelled as follows.
    - [str] is [string], one [ascii] per character (the identifiers,
      statuses and timestamps of the API are ASCII); comparison is by code
      point, as Python compares.
    - A dict read with [d["k"]] for some keys and [d.get("k")] for another
      is a record whose [.get] field is an [option].
    - An exception is a constructor of [exn]; a function that can raise
      returns an [outcome].
    - What the script does to the outside (SDK calls, files, console) is
      threaded through a [World]. *)

From stdpp Require Import base option list gmap strings pretty.
From Stdlib Require Import Strings.Ascii Strings.String Strings.Byte ZArith Lia Permutation Sorted.

Open Scope string_scope.
Open Scope list_scope.
Open Scope stdpp_scope.

(** ** Exceptions *)

(** [SystemExit] is not an [Exception] subclass, so [except Exception] lets
    it through; the three others are caught by it.  [Exception] stands for
    whatever a library raises inside the guarded block
    ([UnicodeDecodeError], [csv.Error], [OSError], ...), with [str(e)]. *)
Inductive exn :=
| SystemExit (msg : string)
| TypeError
| ValueError
| Exception (msg : string).

Inductive outcome (A : Type) :=
| Return (a : A)
| Raise (e : exn).
Arguments Return {A} a.
Arguments Raise {A} e.

Definition is_exception (e : exn) : bool :=
  match e with SystemExit _ => false | _ => true end.

Definition str_of_exn (e : exn) : string :=
  match e with
  | SystemExit msg => msg
  | TypeError => "TypeError"
  | ValueError => "ValueError"
  | Exception msg => msg
  end.

Definition obind {A B} (o : outcome A) (k : A → outcome B) : outcome B :=
  match o with Return a => k a | Raise e => Raise e end.

(** What a library call gives: a value, or the text of the [Exception] it
    raises. *)
Inductive library_result (A : Type) :=
| Ok (a : A)
| Fails (msg : string).
Arguments Ok {A} a.
Arguments Fails {A} msg.

Definition raising {A} (r : library_result A) : outcome A :=
  match r with Ok a => Return a | Fails msg => Raise (Exception msg) end.

(** ** Strings *)

Module Str.

(** [a < b] on [str]: lexicographic on code points. *)
Fixpoint lt (a b : string) : bool :=
  match a, b with
  | _, EmptyString => false
  | EmptyString, String _ _ => true
  | String x a', String y b' =>
      if (nat_of_ascii x <? nat_of_ascii y)%nat then true
      else if (nat_of_ascii y <? nat_of_ascii x)%nat then false
      else lt a' b'
  end.

(** [s[:n]] *)
Fixpoint take (n : nat) (s : string) : string :=
  match n, s with
  | S n', String c s' => String c (take n' s')
  | _, _ => EmptyString
  end.

Definition upper_char (c : ascii) : ascii :=
  let n := nat_of_ascii c in
  if ((97 <=? n) && (n <=? 122))%nat then ascii_of_nat (n - 32) else c.

(** [s.upper()], on the ASCII letters.  No character outside ASCII has an
    upper case among [D], [O], [N], [E], so [s.upper() == "DONE"] is
    decided by the ASCII letters alone. *)
Fixpoint upper (s : string) : string :=
  match s with
  | EmptyString => EmptyString
  | String c s' => String (upper_char c) (upper s')
  end.

(** [str(n)] for a non-negative [int]. *)
Definition of_nat (n : nat) : string := pretty n.

End Str.

(** ** Execution status records *)

(** One element of [exec_status_lookup["body"]["resources"]].  The script
    reads [status], [id] and [scheduled_report_id] by subscript and
    [created_on] by [.get]: [None] is a record without that key. *)
Record status_record := {
  status : string;
  id : string;
  scheduled_report_id : string;
  created_on : option string
}.

(** ** [sorted(run_list, key=..., reverse=True)[:2]] *)

Module Sort.

(** [k1 < k2] on sort keys.  A key is [x.get("created_on")]: a [str], or
    [None] when the record has no such key, and Python refuses to order
    [None]. *)
Definition key_lt (k1 k2 : option string) : outcome bool :=
  match k1, k2 with
  | Some a, Some b => Return (Str.lt a b)
  | _, _ => Raise TypeError
  end.

Section Sorted.
Context {A : Type} (key : A → option string).

(** Put [x] in front of a sorted run of the elements that followed it
    in the input: [x] passes every element with a strictly greater key
    and stops at the first one it is not smaller than, so among equal
    keys the input order stays. *)
Fixpoint insert (x : A) (l : list A) : outcome (list A) :=
  match l with
  | [] => Return [x]
  | y :: l' =>
      obind (key_lt (key x) (key y)) (λ b,
        if b then obind (insert x l') (λ r, Return (y :: r))
        else Return (x :: y :: l'))
  end.

(** [sorted(l, key=key, reverse=True)]: descending and stable, built with
    [<] on the keys alone as Python's sort is.  A list of fewer than two
    elements is returned without any comparison; in a longer one every
    element is compared at least once, so a key that cannot be compared
    makes the sort raise. *)
Fixpoint sorted_desc (l : list A) : outcome (list A) :=
  match l with
  | [] => Return []
  | x :: l' => obind (sorted_desc l') (insert x)
  end.

(** [x] may stand before [y] in descending order of the keys. *)
Definition ge (x y : A) : Prop :=
  match key x, key y with
  | Some a, Some b => Str.lt a b = false
  | _, _ => False
  end.

Definition has_key (x : A) : Prop := is_Some (key x).

Definition keyed (k : option string) (x : A) : Prop := key x = k.

Global Instance keyed_dec k x : Decision (keyed k x) :=
  decide_rel (=) (key x) k.
End Sorted.

End Sort.

(** Line 33 of the script. *)
Definition select_runs (run_list : list status_record) : outcome (list status_record) :=
  obind (Sort.sorted_desc created_on run_list) (λ s, Return (take 2 s)).

(** ** [datetime.strptime(s, "%Y-%m-%dT%H:%M:%S.%fZ").strftime("%Y%m%d")] *)

Module Strptime.

(** [strptime] turns the format into a regular expression, one group per
    directive, matches it case-insensitively at the start of the string
    and then requires the match to end where the string ends.  A parser
    lists its matches in the order the backtracking matcher tries them. *)
Definition parser (A : Type) := string → list (A * string).

Definition pure {A} (a : A) : parser A := λ s, [(a, s)].

Definition seq {A B} (p : parser A) (k : A → parser B) : parser B :=
  λ s, flat_map (λ '(a, s'), k a s') (p s).

Definition alt {A} (p q : parser A) : parser A := λ s, p s ++ q s.

(** One digit between [lo] and [hi], as a number. *)
Definition digit (lo hi : nat) : parser nat :=
  λ s, match s with
       | String c s' =>
           let n := nat_of_ascii c in
           if ((48 + lo <=? n) && (n <=? 48 + hi))%nat then [((n - 48)%nat, s')] else []
       | EmptyString => []
       end.

(** A literal character of the format, matched ignoring case. *)
Definition lit (c : ascii) : parser unit :=
  λ s, match s with
       | String c' s' =>
           if Ascii.eqb (Str.upper_char c') (Str.upper_char c) then [(tt, s')] else []
       | EmptyString => []
       end.

(** [ab], the two-digit number of [a] in [alo..ahi] then [b] in [blo..bhi]. *)
Definition two (alo ahi blo bhi : nat) : parser nat :=
  seq (digit alo ahi) (λ a, seq (digit blo bhi) (λ b, pure (10 * a + b)%nat)).

(** [%Y]: [\d\d\d\d] *)
Definition dir_Y : parser nat :=
  seq (two 0 9 0 9) (λ hi, seq (two 0 9 0 9) (λ lo, pure (100 * hi + lo)%nat)).
(** [%m]: [1[0-2]|0[1-9]|[1-9]] *)
Definition dir_m : parser nat := alt (two 1 1 0 2) (alt (two 0 0 1 9) (digit 1 9)).
(** [%d]: [3[0-1]|[1-2]\d|0[1-9]|[1-9]| [1-9]] *)
Definition dir_d : parser nat :=
  alt (two 3 3 0 1) (alt (two 1 2 0 9) (alt (two 0 0 1 9) (alt (digit 1 9)
    (seq (lit " ") (λ _, digit 1 9))))).
(** [%H]: [2[0-3]|[0-1]\d|\d] *)
Definition dir_H : parser nat := alt (two 2 2 0 3) (alt (two 0 1 0 9) (digit 0 9)).
(** [%M]: [[0-5]\d|\d] *)
Definition dir_M : parser nat := alt (two 0 5 0 9) (digit 0 9).
(** [%S]: [6[0-1]|[0-5]\d|\d] *)
Definition dir_S : parser nat := alt (two 6 6 0 1) (alt (two 0 5 0 9) (digit 0 9)).

(** Between one and [S n] digits, the longest first; the value is unused
    by the script, the parser returns how many digits it took. *)
Fixpoint digits_upto (n : nat) : parser nat :=
  match n with
  | O => seq (digit 0 9) (λ _, pure 1%nat)
  | S n' => alt (seq (digit 0 9) (λ _, seq (digits_upto n') (λ k, pure (S k))))
                (seq (digit 0 9) (λ _, pure 1%nat))
  end.
(** [%f]: [[0-9]{1,6}] *)
Definition dir_f : parser nat := digits_upto 5.

Record datetime := {
  year : nat; month : nat; day : nat; hour : nat; minute : nat; second : nat
}.

(** The whole format. *)
Definition format_regex : parser datetime :=
  seq dir_Y (λ y, seq (lit "-") (λ _,
  seq dir_m (λ m, seq (lit "-") (λ _,
  seq dir_d (λ d, seq (lit "T") (λ _,
  seq dir_H (λ h, seq (lit ":") (λ _,
  seq dir_M (λ mi, seq (lit ":") (λ _,
  seq dir_S (λ s, seq (lit ".") (λ _,
  seq dir_f (λ _, seq (lit "Z") (λ _,
  pure {| year := y; month := m; day := d; hour := h; minute := mi; second := s |}
  )))))))))))))).

Definition is_leap (y : nat) : bool :=
  ((y mod 4 =? 0) && (negb (y mod 100 =? 0) || (y mod 400 =? 0)))%nat.

Definition days_in_month (y m : nat) : nat :=
  match m with
  | 2 => if is_leap y then 29 else 28
  | 4 | 6 | 9 | 11 => 30
  | _ => 31
  end%nat.

(** What the [date] and [datetime] constructors accept; the ranges the
    regular expression already enforces are repeated for the reader. *)
Definition valid (d : datetime) : bool :=
  ((1 <=? year d) && (1 <=? month d) && (month d <=? 12) &&
   (1 <=? day d) && (day d <=? days_in_month (year d) (month d)) &&
   (hour d <=? 23) && (minute d <=? 59) && (second d <=? 59))%nat.

Definition strptime (s : string) : outcome datetime :=
  match format_regex s with
  | [] => Raise ValueError
  | (d, rest) :: _ =>
      if String.eqb rest "" then
        if valid d then Return d else Raise ValueError
      else Raise ValueError
  end.

Definition pad (width : nat) (n : nat) : string :=
  let s := Str.of_nat n in
  String.concat "" (replicate (width - String.length s) "0") +:+ s.

(** [strftime("%Y%m%d")] *)
Definition strftime_Ymd (d : datetime) : string :=
  pad 4 (year d) +:+ pad 2 (month d) +:+ pad 2 (day d).

End Strptime.

(** Lines 41 to 47 of the script. *)
Definition date_suffix (exec_status : status_record) : outcome string :=
  let created_on_str := default "Unknown Date" (created_on exec_status) in
  if negb (String.eqb created_on_str "Unknown Date") then
    let created_on_str := Str.take 26 created_on_str +:+ "Z" in
    obind (Strptime.strptime created_on_str)
          (λ created_on_date, Return (Strptime.strftime_Ymd created_on_date))
  else Return "unknown".

(** ** Values exchanged with the libraries *)

(** What [sdk.get_download] hands back: the report as [bytes], or, when the
    platform has nothing to download, [None] or the error response as a
    dict. *)
Inductive pyobj :=
| PyNone
| PyBytes (b : list byte)
| PyDict (entries : list (string * string)).

(** [if report_detail:] *)
Definition truthy (o : pyobj) : bool :=
  match o with
  | PyNone => false
  | PyBytes b => negb (bool_decide (b = []))
  | PyDict d => negb (bool_decide (d = []))
  end.

(** The dict an SDK call returns: [r["status_code"]] and
    [r["body"]["resources"]]. *)
Record response (A : Type) := {
  status_code : Z;
  resources : list A
}.
Arguments status_code {A} r.
Arguments resources {A} r.

(** A spreadsheet cell; [None] is the empty cell, which pandas reads as a
    null. *)
Abbreviation cell := (option string).

(** The sheet of a saved workbook, row by row. *)
Abbreviation xlsx := (list (list cell)).

(** A row of the table [pd.read_excel] builds: the five identity columns by
    name and the remaining columns. *)
Record row := {
  cve_id : cell;
  image_repository : cell;
  image_tag : cell;
  image_name : cell;
  image_registry : cell;
  others : list cell
}.

Abbreviation DataFrame := (list row).

Inductive sdk_call :=
| reports_executions_query_call (filter : string)
| report_executions_get_call (id_list : list string)
| get_download_call (exec_id : string).

(** ** The collaborators *)

(** The vendor SDK, the codecs, [csv], [openpyxl], [pandas], the process
    environment and the clock are not part of the script; it is verified
    against any behaviour of theirs that has these types. *)
Class Platform := {
  sdk_state : Type;
  reports_executions_query : sdk_state → string → response string * sdk_state;
  report_executions_get : sdk_state → list string → response status_record * sdk_state;
  get_download : sdk_state → string → pyobj * sdk_state;
  (** [os.getenv("CROWDSTRIKE_REPORT_ID")] *)
  CROWDSTRIKE_REPORT_ID : option string;
  (** [bytes.decode('utf-8')] *)
  decode_utf8 : list byte → library_result string;
  (** [str.splitlines()] *)
  splitlines : string → list string;
  (** [csv.reader(rows)]: the rows it yields and, if it then fails, the
      text of its error. *)
  csv_reader : list string → list (list string) * option string;
  (** The text of the error when [openpyxl] refuses a row. *)
  append_error : list string → option string;
  (** The text of the error when a spreadsheet cannot be written under
      this name. *)
  write_error : string → option string;
  (** [pd.read_excel] on the content of a file. *)
  read_excel : xlsx → library_result DataFrame;
  (** [datetime.now().strftime('%Y_%m_%d')] *)
  current_date : string
}.

Section Script.
Context `{Platform}.

(** ** The world and the monad of the script *)

Record World := {
  sdk : sdk_state;
  (** the SDK calls made so far, oldest first *)
  calls : list sdk_call;
  files : gmap string xlsx;
  (** the lines printed so far, oldest first *)
  console : list string
}.

Definition M (A : Type) := World → outcome A * World.

Definition ret {A} (a : A) : M A := λ w, (Return a, w).

Definition bind {A B} (m : M A) (k : A → M B) : M B :=
  λ w, match m w with
       | (Return a, w') => k a w'
       | (Raise e, w') => (Raise e, w')
       end.

Definition raise {A} (e : exn) : M A := λ w, (Raise e, w).

Definition lift {A} (o : outcome A) : M A := λ w, (o, w).

(** [try: body except Exception as e: handler(e)] *)
Definition try_except {A} (body : M A) (handler : exn → M A) : M A :=
  λ w, match body w with
       | (Raise e, w') => if is_exception e then handler e w' else (Raise e, w')
       | r => r
       end.

(** The world after [lines] went to the console. *)
Definition printed (lines : list string) (w : World) : World :=
  {| sdk := sdk w; calls := calls w; files := files w; console := console w ++ lines |}.

(** The world after the SDK call [c] left the platform in state [s]. *)
Definition called (c : sdk_call) (s : sdk_state) (w : World) : World :=
  {| sdk := s; calls := calls w ++ [c]; files := files w; console := console w |}.

(** The world after [content] was written to the file [name]. *)
Definition written (name : string) (content : xlsx) (w : World) : World :=
  {| sdk := sdk w; calls := calls w; files := <[name := content]> (files w);
     console := console w |}.

Definition print (line : string) : M unit :=
  λ w, (Return tt, printed [line] w).

Definition call_sdk {A} (c : sdk_call) (f : sdk_state → A * sdk_state) : M A :=
  λ w, let '(a, s) := f (sdk w) in (Return a, called c s w).

(** Writing a spreadsheet: [workbook.save] and [DataFrame.to_excel]. *)
Definition write_xlsx (name : string) (content : xlsx) : M unit :=
  λ w, match write_error name with
       | Some msg => (Raise (Exception msg), w)
       | None => (Return tt, written name content w)
       end.

End Script.

Notation "x <- m ;; k" := (bind m (λ x, k))
  (at level 100, m at next level, right associativity).
Notation "m ;;; k" := (bind m (λ _, k))
  (at level 100, right associativity).

(** ** The script *)

Section Stages.
Context `{Platform}.

(** What an f-string makes of a value that may be [None]. *)
Definition fmt (o : option string) : string := default "None" o.

Definition retrieve_report_executions (rptid : option string) : M (list string) :=
  print ("Searching for executions of " +:+ fmt rptid) ;;;
  let filter := "scheduled_report_id:'" +:+ fmt rptid +:+ "'" in
  execution_id_lookup <-
    call_sdk (reports_executions_query_call filter)
             (λ s, reports_executions_query s filter) ;;
  if negb (status_code execution_id_lookup =? 200)%Z then
    raise (SystemExit
      "Unable to retrieve report executions from the CrowdStrike API, check API key permissions.")
  else ret (resources execution_id_lookup).

Definition get_report_execution_runs (id_list : list string) : M (list status_record) :=
  print ("Found " +:+ Str.of_nat (List.length id_list) +:+
         " executions of this report available.") ;;;
  exec_status_lookup <-
    call_sdk (report_executions_get_call id_list)
             (λ s, report_executions_get s id_list) ;;
  if negb (status_code exec_status_lookup =? 200)%Z then
    raise (SystemExit "Unable to retrieve execution statuses from the CrowdStrike API.")
  else
    print ("This execution has run " +:+
           Str.of_nat (List.length (resources exec_status_lookup)) +:+ " times.") ;;;
    ret (resources exec_status_lookup).

(** [for row in reader: sheet.append(row)], on the rows the reader
    yields. *)
Fixpoint append_rows (sheet : xlsx) (rows : list (list string)) : outcome xlsx :=
  match rows with
  | [] => Return sheet
  | r :: rows' =>
      match append_error r with
      | Some msg => Raise (Exception msg)
      | None => append_rows (sheet ++ [Some <$> r]) rows'
      end
  end.

(** The body of the [try] block, lines 55 to 68. *)
Definition save_report (exec_id date_suffix : string) (report_detail : list byte)
    (saved_files : list string) : M (list string) :=
  decoded_data <- lift (raising (decode_utf8 report_detail)) ;;
  let rows := splitlines decoded_data in
  let reader := csv_reader rows in
  sheet <- lift (append_rows [] (fst reader)) ;;
  match snd reader with
  | Some msg => raise (Exception msg)
  | None =>
      let excel_filename := exec_id +:+ "_" +:+ date_suffix +:+ ".xlsx" in
      write_xlsx excel_filename sheet ;;;
      let saved_files := saved_files ++ [excel_filename] in
      print (exec_id +:+ " successfully saved to " +:+ excel_filename) ;;;
      ret saved_files
  end.

(** The body of the [for] loop, lines 37 to 77; it returns [saved_files]
    as the iteration leaves it. *)
Definition process_one (exec_status : status_record) (saved_files : list string)
    : M (list string) :=
  let exec_id := id exec_status in
  let rpt_id := scheduled_report_id exec_status in
  date_suffix <- lift (date_suffix exec_status) ;;
  if String.eqb (Str.upper (status exec_status)) "DONE" then
    print ("Retrieving report detail for execution ID: " +:+ exec_id) ;;;
    report_detail <- call_sdk (get_download_call exec_id) (λ s, get_download s exec_id) ;;
    if truthy report_detail then
      match report_detail with
      | PyBytes b =>
          try_except (save_report exec_id date_suffix b saved_files)
            (λ e, print ("Failed to process report " +:+ exec_id +:+ ". Error: " +:+
                         str_of_exn e) ;;;
                  ret saved_files)
      | _ =>
          print ("Report detail is not in bytes format, cannot process execution " +:+
                 exec_id +:+ ".") ;;;
          ret saved_files
      end
    else
      print ("Unable to retrieve report for execution " +:+ exec_id +:+ " of " +:+
             rpt_id +:+ ".") ;;;
      ret saved_files
  else
    print ("Skipping " +:+ exec_id +:+ " as not yet finished.") ;;;
    ret saved_files.

(** The line the loop body prints in place of an error, for a finished
    execution whose report does not become a file: nothing to download,
    a download that is not [bytes], or a failure in the guarded block.
    [None] when the report is saved. *)
Definition recoverable_error (exec_status : status_record) (date_suffix : string)
    (saved_files : list string) (w : World) : option string :=
  let exec_id := id exec_status in
  let report_detail := (get_download (sdk w) exec_id).1 in
  let w1 := called (get_download_call exec_id) (get_download (sdk w) exec_id).2
              (printed ["Retrieving report detail for execution ID: " +:+ exec_id] w) in
  if truthy report_detail then
    match report_detail with
    | PyBytes b =>
        match save_report exec_id date_suffix b saved_files w1 with
        | (Raise e, _) =>
            Some ("Failed to process report " +:+ exec_id +:+ ". Error: " +:+ str_of_exn e)
        | (Return _, _) => None
        end
    | _ => Some ("Report detail is not in bytes format, cannot process execution " +:+
                 exec_id +:+ ".")
    end
  else Some ("Unable to retrieve report for execution " +:+ exec_id +:+ " of " +:+
             scheduled_report_id exec_status +:+ ".").

(** The [for] loop over [sorted_runs]. *)
Fixpoint process_loop (sorted_runs : list status_record) (saved_files : list string)
    : M (list string) :=
  match sorted_runs with
  | [] => ret saved_files
  | exec_status :: rest =>
      saved_files <- process_one exec_status saved_files ;;
      process_loop rest saved_files
  end.

Definition process_executions (run_list : list status_record) : M (list string) :=
  sorted_runs <- lift (select_runs run_list) ;;
  process_loop sorted_runs [].

(** [pd.read_excel(file_path)] *)
Definition read_file (file_path : string) : M DataFrame :=
  λ w, match files w !! file_path with
       | Some content => (raising (read_excel content), w)
       | None => (Raise (Exception ("No such file or directory: " +:+ file_path)), w)
       end.

(** [df.dropna(subset=['CVE ID'])] *)
Definition dropna_cve (df : DataFrame) : DataFrame :=
  filter (λ r, cve_id r ≠ None) df.

(** The values of a row in the five columns of [on=[...]]. *)
Definition identity (r : row) : cell * cell * cell * cell * cell :=
  (cve_id r, image_repository r, image_tag r, image_name r, image_registry r).

Inductive merge_indicator := left_only | both.

Definition is_left_only (i : merge_indicator) : bool :=
  match i with left_only => true | both => false end.

Global Instance merge_indicator_eq_dec : EqDecision merge_indicator :=
  λ i j, match i, j with
         | left_only, left_only | both, both => left eq_refl
         | left_only, both =>
             right (λ E, Bool.diff_false_true
                           (eq_ind left_only (λ k, is_left_only k = true) eq_refl both E))
         | both, left_only =>
             right (λ E, Bool.diff_false_true
                           (eq_ind left_only (λ k, is_left_only k = true) eq_refl both (eq_sym E)))
         end.

(** [pd.merge(left, right, on=[...], how='left', indicator=True)]: every
    row of [left], in order, once per row of [right] equal to it on the
    five columns (nulls in the other key columns match each other), or
    once by itself when there is none. *)
Definition merge_left (left right : DataFrame) : list (row * option row * merge_indicator) :=
  l ← left;
  match filter (λ r, identity r = identity l) right with
  | [] => [(l, None, left_only)]
  | matches => (λ r, (l, Some r, both)) <$> matches
  end.

(** [df[['CVE ID', ..., 'Image registry']]] as sheet rows under the
    header [to_excel] writes. *)
Definition identity_header : list cell :=
  [Some "CVE ID"; Some "Image repository"; Some "Image tag"; Some "Image name";
   Some "Image registry"].

Definition identity_cells (r : row) : list cell :=
  [cve_id r; image_repository r; image_tag r; image_name r; image_registry r].

(** Lines 90 to 94 and the projection of line 99: the rows that go to
    the output, given the two tables as read. *)
Definition unique_values (older_data newer_data : DataFrame) : list row :=
  let older_data := dropna_cve older_data in
  let newer_data := dropna_cve newer_data in
  let comparison := merge_left newer_data older_data in
  (λ j, j.1.1) <$> filter (λ j, j.2 = left_only) comparison.

Definition compare_excel_files (file1 file2 : string) : M string :=
  older_data <- read_file file1 ;;
  newer_data <- read_file file2 ;;
  let unique_values := unique_values older_data newer_data in
  let output_file_name := current_date +:+ "_ImageVulnerabilityAssessment.xlsx" in
  write_xlsx output_file_name (identity_header :: (identity_cells <$> unique_values)) ;;;
  print ("The data has been successfully saved to " +:+ output_file_name +:+ ".") ;;;
  ret output_file_name.

(** The [__main__] block. *)
Definition main : M unit :=
  id_list <- retrieve_report_executions CROWDSTRIKE_REPORT_ID ;;
  run_list <- get_report_execution_runs id_list ;;
  saved_files <- process_executions run_list ;;
  match saved_files with
  | [file1; file2] =>
      output_file <- compare_excel_files file1 file2 ;;
      ret tt
  | _ => print "Not enough files saved for comparison."
  end.

End Stages.

(** ** A scripted platform *)

(** A platform whose SDK answers from a fixed script and whose libraries do
    the plain thing on plain input (ASCII bytes, [\n] line ends, commas
    without quoting, a header row naming the columns).  It is what the
    examples below run on. *)
Module Scripted.

Record script := {
  report_id : option string;
  query_answer : response string;
  get_answer : response status_record;
  download_answer : string → pyobj;
  unwritable : list string;
  today : string
}.

(** [s.split(sep)] *)
Fixpoint split (sep : ascii) (s : string) : list string :=
  match s with
  | EmptyString => [EmptyString]
  | String c s' =>
      if Ascii.eqb c sep then EmptyString :: split sep s'
      else match split sep s' with
           | x :: xs => String c x :: xs
           | [] => [String c EmptyString]
           end
  end.

Definition lines (s : string) : list string :=
  let parts := split "010" s in
  match reverse parts with
  | EmptyString :: r => reverse r
  | _ => parts
  end.

Definition decode (b : list byte) : library_result string :=
  if forallb (λ x, (Byte.to_nat x <? 128)%nat) b
  then Ok (string_of_list_byte b)
  else Fails "'utf-8' codec can't decode bytes".

Definition null_if_empty (c : cell) : cell :=
  match c with Some EmptyString => None | _ => c end.

Definition column (header : list cell) (name : string) (r : list cell) : option cell :=
  '(i, _) ← list_find (λ h, h = Some name) header;
  Some (null_if_empty (mjoin (r !! i))).

Definition table_row (header r : list cell) : option row :=
  c1 ← column header "CVE ID" r;
  c2 ← column header "Image repository" r;
  c3 ← column header "Image tag" r;
  c4 ← column header "Image name" r;
  c5 ← column header "Image registry" r;
  Some {| cve_id := c1; image_repository := c2; image_tag := c3;
          image_name := c4; image_registry := c5; others := [] |}.

Definition read (content : xlsx) : library_result DataFrame :=
  match content with
  | [] => Ok []
  | header :: body =>
      match mapM (table_row header) body with
      | Some df => Ok df
      | None => Fails "KeyError"
      end
  end.

Definition platform (sc : script) : Platform := {|
  sdk_state := unit;
  reports_executions_query := λ s _, (query_answer sc, s);
  report_executions_get := λ s _, (get_answer sc, s);
  get_download := λ s exec_id, (download_answer sc exec_id, s);
  CROWDSTRIKE_REPORT_ID := report_id sc;
  decode_utf8 := decode;
  splitlines := lines;
  csv_reader := λ rows, (split "," <$> rows, None);
  append_error := λ _, None;
  write_error := λ name, if bool_decide (name ∈ unwritable sc) then Some "Permission denied" else None;
  read_excel := read;
  current_date := today sc
|}.

Definition start (sc : script) : @World (platform sc) :=
  {| sdk := tt : @sdk_state (platform sc); calls := []; files := ∅; console := [] |}.

End Scripted.

(** ** Vocabulary of the statements *)

(** The date suffix of the record can be derived: [created_on] is absent
    (or is the placeholder the script uses for an absent one), or its first
    26 characters followed by [Z] parse under the format. *)
Definition conforming (r : status_record) : bool :=
  match date_suffix r with Return _ => true | Raise _ => false end.



(** Section 4.4 of the specification, in its words: drop the rows with a
    null CVE identifier from each table, join the second table to the first
    on the five identity columns, keep the rows of the second table that
    found no match, and keep their five identity columns. *)
Definition rows_only_in_second (first second : DataFrame) : list (list cell) :=
  let first := filter (λ r, cve_id r ≠ None) first in
  let second := filter (λ r, cve_id r ≠ None) second in
  identity_cells <$> filter (λ r, Forall (λ r', identity r' ≠ identity r) first) second.

(** ** Runs used as examples *)

Module Examples.

Definition header_line : string :=
  "CVE ID,Image repository,Image tag,Image name,Image registry".

Definition line_feed : string := String "010" EmptyString.

(** The report of the execution [A]: [CVE-1] and [CVE-2]. *)
Definition csv_A : list byte :=
  list_byte_of_string
    (header_line +:+ line_feed +:+
     "CVE-1,repo,1.0,img,reg" +:+ line_feed +:+
     "CVE-2,repo,1.0,img,reg" +:+ line_feed).

(** The report of the execution [B]: [CVE-1] and [CVE-3]. *)
Definition csv_B : list byte :=
  list_byte_of_string
    (header_line +:+ line_feed +:+
     "CVE-1,repo,1.0,img,reg" +:+ line_feed +:+
     "CVE-3,repo,1.0,img,reg" +:+ line_feed).

Definition finding (cve : string) : list cell :=
  [Some cve; Some "repo"; Some "1.0"; Some "img"; Some "reg"].

(** [A] was created on 2 January 2024, [B] and [C] at the same instant of
    1 January 2024. *)
Definition run_A : status_record :=
  {| status := "done"; id := "A"; scheduled_report_id := "rpt";
     created_on := Some "2024-01-02T00:00:00.000000000Z" |}.

Definition run_B : status_record :=
  {| status := "DONE"; id := "B"; scheduled_report_id := "rpt";
     created_on := Some "2024-01-01T00:00:00.000000000Z" |}.

Definition run_C : status_record :=
  {| status := "PENDING"; id := "C"; scheduled_report_id := "rpt";
     created_on := Some "2024-01-01T00:00:00.000000000Z" |}.

(** An execution still in progress whose timestamp has milliseconds only:
    its first 26 characters already end in [Z]. *)
Definition run_millis : status_record :=
  {| status := "PENDING"; id := "M"; scheduled_report_id := "rpt";
     created_on := Some "2024-01-02T03:04:05.123Z" |}.

(** Two finished executions without [created_on]. *)
Definition undated_1 : status_record :=
  {| status := "DONE"; id := "A"; scheduled_report_id := "rpt"; created_on := None |}.


Definition downloads (exec_id : string) : pyobj :=
  if String.eqb exec_id "A" then PyBytes csv_A
  else if String.eqb exec_id "B" then PyBytes csv_B
  else PyNone.

Definition script_of (query_status get_status : Z) (runs : list status_record)
    (download : string → pyobj) : Scripted.script :=
  {| Scripted.report_id := Some "rpt";
     Scripted.query_answer := {| status_code := query_status; resources := id <$> runs |};
     Scripted.get_answer := {| status_code := get_status; resources := runs |};
     Scripted.download_answer := download;
     Scripted.unwritable := [];
     Scripted.today := "2024_01_03" |}.

(** The platform lists [B] before [A]; both reports can be downloaded. *)
Definition two_done : Scripted.script := script_of 200 200 [run_B; run_A] downloads.

(** Only [A] exists. *)
Definition one_done : Scripted.script := script_of 200 200 [run_A] downloads.

(** The execution query is refused. *)
Definition query_refused : Scripted.script := script_of 403 200 [run_B; run_A] downloads.

(** The status fetch fails. *)
Definition get_failed : Scripted.script := script_of 200 500 [run_B; run_A] downloads.

(** The reports are there but the platform hands out empty payloads. *)
Definition empty_payloads : Scripted.script :=
  script_of 200 200 [run_B; run_A] (λ _, PyBytes []).

(** The two spreadsheets stage 4.3 saves for [A] and [B], and a world that
    holds them. *)
Definition sheet_A : xlsx := [identity_header; finding "CVE-1"; finding "CVE-2"].

Definition sheet_B : xlsx := [identity_header; finding "CVE-1"; finding "CVE-3"].

Definition two_files : @World (Scripted.platform two_done) :=
  written "A_20240102.xlsx" sheet_A
    (written "B_20240101.xlsx" sheet_B (Scripted.start two_done)).

End Examples.

(** ** Vocabulary of the further properties *)

(** Line 49: [status.upper() == "DONE"]. *)
Definition is_done (exec_status : status_record) : bool :=
  String.eqb (Str.upper (status exec_status)) "DONE".

(** Line 65: the name under which the report of a record is saved, once
    its date suffix is derived. *)
Definition excel_filename (exec_status : status_record) : string :=
  match date_suffix exec_status with
  | Return date_suffix => id exec_status +:+ "_" +:+ date_suffix +:+ ".xlsx"
  | Raise _ => ""
  end.

(** The name of the comparison output, line 97. *)
Definition output_file_name `{Platform} : string :=
  current_date +:+ "_ImageVulnerabilityAssessment.xlsx".

(** [c] is one of [0] to [9]. *)
Definition is_digit (c : ascii) : bool :=
  ((48 <=? nat_of_ascii c) && (nat_of_ascii c <=? 57))%nat.

(** The last character of a string, if any. *)
Fixpoint last_char (s : string) : option ascii :=
  match s with
  | EmptyString => None
  | String c EmptyString => Some c
  | String _ s' => last_char s'
  end.

(** [s] is some characters, then a digit, then one more character, then
    [rest]. *)
Definition digit_then_one (s rest : string) : Prop :=
  ∃ pre c z, s = pre +:+ String c (String z rest) ∧ is_digit c = true.

(** [s] is some characters, then [rest]. *)
Definition consumed (s rest : string) : Prop := ∃ pre, s = pre +:+ rest.

(** ** More examples *)

Module MoreExamples.
Import Examples.

(** Stage 4.3 on the run in which [B] and [A] are listed and both finished. *)
Definition stage3 : outcome (list string) * @World (Scripted.platform two_done) :=
  @process_executions (Scripted.platform two_done) [run_B; run_A] (Scripted.start two_done).

(** [A] again, its timestamp cut after the microseconds. *)
Definition run_A_micro : status_record :=
  {| status := "done"; id := "A"; scheduled_report_id := "rpt";
     created_on := Some "2024-01-02T00:00:00.000000" |}.

Definition finding_row (cve : option string) (tag : string) : row :=
  {| cve_id := cve; image_repository := Some "repo"; image_tag := Some tag;
     image_name := Some "img"; image_registry := Some "reg"; others := [] |}.

(** The table of [A] with a row that has no CVE identifier, and the table
    of [B]. *)
Definition table_A : DataFrame :=
  [finding_row (Some "CVE-1") "1.0"; finding_row (Some "CVE-2") "1.0";
   finding_row None "1.0"].

Definition table_B : DataFrame :=
  [finding_row (Some "CVE-1") "1.0"; finding_row (Some "CVE-3") "1.0"].

(** The whole run, and the run in which the execution query is refused. *)
Definition whole_run : outcome unit * @World (Scripted.platform two_done) :=
  @main (Scripted.platform two_done) (Scripted.start two_done).

Definition refused_run : outcome unit * @World (Scripted.platform query_refused) :=
  @main (Scripted.platform query_refused) (Scripted.start query_refused).

End MoreExamples.

(** * Properties *)

(** ** The order on strings *)

Module StrFacts.

Lemma lt_irrefl a : Str.lt a a = false.
Proof.
  induction a as [|c a IH]; simpl; [done|].
  by rewrite Nat.ltb_irrefl.
Qed.

Lemma lt_asym a b : Str.lt a b = true → Str.lt b a = false.
Proof.
  revert b. induction a as [|x a IH]; intros [|y b]; simpl; try done.
  destruct (Nat.ltb_spec (nat_of_ascii x) (nat_of_ascii y)),
           (Nat.ltb_spec (nat_of_ascii y) (nat_of_ascii x)); try done; try lia.
  apply IH.
Qed.

(** [>=] is transitive. *)
Lemma str_ge_trans a b c :
  Str.lt a b = false → Str.lt b c = false → Str.lt a c = false.
Proof.
  revert b c. induction a as [|x a IH]; intros [|y b] [|z c]; simpl; try done.
  destruct (Nat.ltb_spec (nat_of_ascii x) (nat_of_ascii y)),
           (Nat.ltb_spec (nat_of_ascii y) (nat_of_ascii x)),
           (Nat.ltb_spec (nat_of_ascii y) (nat_of_ascii z)),
           (Nat.ltb_spec (nat_of_ascii z) (nat_of_ascii y)),
           (Nat.ltb_spec (nat_of_ascii x) (nat_of_ascii z)),
           (Nat.ltb_spec (nat_of_ascii z) (nat_of_ascii x));
    try done; try lia.
  apply IH.
Qed.

Lemma lt_ne a b : Str.lt a b = true → a ≠ b.
Proof. intros Hlt ->. by rewrite lt_irrefl in Hlt. Qed.

End StrFacts.

(** ** The sort *)

Module SortFacts.
Section WithKey.
Context {A : Type} (key : A → option string).

Lemma key_ge_trans x y z : Sort.ge key x y → Sort.ge key y z → Sort.ge key x z.
Proof.
  unfold Sort.ge. destruct (key x), (key y), (key z); try done.
  apply StrFacts.str_ge_trans.
Qed.

Lemma insert_spec x l :
  is_Some (key x) → Forall (Sort.has_key key) l →
  ∃ r, Sort.insert key x l = Return r ∧
       r ≡ₚ x :: l ∧
       (StronglySorted (Sort.ge key) l → StronglySorted (Sort.ge key) r) ∧
       ∀ k, filter (Sort.keyed key k) r = filter (Sort.keyed key k) (x :: l).
Proof.
  intros [a Ha] Hl. induction Hl as [|y l [b Hb] Hl IH].
  { exists [x]. repeat split; auto. intros _. repeat constructor. }
  simpl. rewrite Ha, Hb. simpl.
  destruct (Str.lt a b) eqn:Hlt.
  - destruct IH as (r & -> & Hperm & Hsorted & Hstable). simpl.
    exists (y :: r). split; [done|]. split; [|split].
    + rewrite Hperm. apply perm_swap.
    + intros Hs. apply StronglySorted_inv in Hs as [Hs Hy].
      constructor; [by apply Hsorted|].
      rewrite Hperm. constructor; [|done].
      unfold Sort.ge. rewrite Ha, Hb. by apply StrFacts.lt_asym.
    + intros k. rewrite !filter_cons, Hstable, filter_cons.
      repeat case_decide; try done.
      exfalso. apply (StrFacts.lt_ne _ _ Hlt). congruence.
  - exists (x :: y :: l). repeat split; auto.
    intros Hs. constructor; [done|].
    assert (Sort.ge key x y) as Hxy by (unfold Sort.ge; by rewrite Ha, Hb).
    constructor; [done|].
    apply StronglySorted_inv in Hs as [_ Hy].
    eapply Forall_impl; [exact Hy|]. intros z. by apply key_ge_trans.
Qed.

(** On keys that are all strings the sort returns; its result is a
    permutation of the input, descending, and equal keys keep their
    input order. *)
Lemma sorted_desc_spec l :
  Forall (Sort.has_key key) l →
  ∃ s, Sort.sorted_desc key l = Return s ∧
       s ≡ₚ l ∧
       StronglySorted (Sort.ge key) s ∧
       ∀ k, filter (Sort.keyed key k) s = filter (Sort.keyed key k) l.
Proof.
  induction 1 as [|x l Hx Hl IH].
  { exists []. repeat split; auto. constructor. }
  destruct IH as (s & Hs & Hperm & Hsorted & Hstable).
  destruct (insert_spec x s Hx) as (r & Hr & Hperm' & Hsorted' & Hstable').
  { by rewrite Hperm. }
  exists r. simpl. rewrite Hs. simpl. split; [done|]. split; [|split].
  - by rewrite Hperm', Hperm.
  - by apply Hsorted'.
  - intros k. by rewrite Hstable', !filter_cons, Hstable.
Qed.

(** Fewer than two elements are never compared. *)
Lemma sorted_desc_short l :
  (List.length l ≤ 1)%nat → Sort.sorted_desc key l = Return l.
Proof. destruct l as [|x [|y l]]; simpl; [done|done|lia]. Qed.

End WithKey.
End SortFacts.

(** ** The date suffix *)

Lemma strptime_raises s e : Strptime.strptime s = Raise e → e = ValueError.
Proof.
  unfold Strptime.strptime.
  destruct (Strptime.format_regex s) as [|[d rest] ?]; [congruence|].
  destruct (String.eqb rest ""); [|congruence].
  destruct (Strptime.valid d); congruence.
Qed.

Lemma date_suffix_raises r e : date_suffix r = Raise e → e = ValueError.
Proof.
  unfold date_suffix. destruct (negb _); [|done].
  destruct (Strptime.strptime _) eqn:Hp; simpl; [done|].
  intros [= <-]. by eapply strptime_raises.
Qed.

Lemma date_suffix_unknown r : created_on r = None → date_suffix r = Return "unknown".
Proof. unfold date_suffix. by intros ->. Qed.

Lemma conforming_false r : conforming r = false ↔ date_suffix r = Raise ValueError.
Proof.
  unfold conforming. split.
  - destruct (date_suffix r) eqn:Hd; [done|]. by rewrite (date_suffix_raises _ _ Hd).
  - by intros ->.
Qed.

Lemma conforming_true r : conforming r = true ↔ ∃ suffix, date_suffix r = Return suffix.
Proof.
  unfold conforming. destruct (date_suffix r); split; try done; eauto.
  by intros [? ?].
Qed.

(** ** One iteration of the loop *)

Section Iteration.
Context `{Platform}.

Ltac run := unfold bind, ret, raise, lift, print, call_sdk, write_xlsx, try_except; simpl.

(** The guarded block raises nothing that [except Exception] lets pass. *)
Lemma save_report_raises exec_id suffix b saved w e w' :
  save_report exec_id suffix b saved w = (Raise e, w') →
  is_exception e = true ∧ w' = w.
Proof.
  unfold save_report. run.
  destruct (decode_utf8 b) as [decoded|msg]; simpl; [|by intros [= <- <-]].
  destruct (csv_reader (splitlines decoded)) as [rows err]; simpl.
  assert (∀ sheet res, append_rows sheet rows = Raise res → is_exception res = true) as Happ.
  { clear. induction rows as [|r rows IH]; intros sheet res; simpl; [done|].
    destruct (append_error r); [by intros [= <-]|]. apply IH. }
  destruct (append_rows [] rows) as [sheet|e0] eqn:Hrows.
  - destruct err as [msg|]; [by intros [= <- <-]|].
    destruct (write_error _); [by intros [= <- <-]|done].
  - intros [= <- <-]. split; [by eapply Happ|done].
Qed.

Lemma save_report_returns exec_id suffix b saved w saved' w' :
  save_report exec_id suffix b saved w = (Return saved', w') →
  saved' = saved ++ [exec_id +:+ "_" +:+ suffix +:+ ".xlsx"].
Proof.
  unfold save_report. run.
  destruct (decode_utf8 b) as [decoded|msg]; simpl; [|done].
  destruct (csv_reader (splitlines decoded)) as [rows err]; simpl.
  destruct (append_rows [] rows) as [sheet|e0]; [|done].
  destruct err as [msg|]; [done|].
  destruct (write_error _); [done|]. by intros [= <- <-].
Qed.

(** Whatever the status, a record whose date suffix cannot be derived
    stops the iteration before anything is printed or asked. *)
Lemma process_one_nonconforming r saved w :
  conforming r = false → process_one r saved w = (Raise ValueError, w).
Proof.
  intros Hr%conforming_false. unfold process_one. run. by rewrite Hr.
Qed.

(** With a date suffix the iteration returns, and the list of saved files
    is as before or one file longer. *)
Lemma process_one_returns r saved w :
  conforming r = true →
  ∃ saved' w', process_one r saved w = (Return saved', w') ∧
               (List.length saved' ≤ S (List.length saved))%nat.
Proof.
  intros [suffix Hs]%conforming_true. unfold process_one. run. rewrite Hs.
  destruct (String.eqb _ _); [|eauto].
  destruct (get_download (sdk w) (id r)) as [d s] eqn:Hd. simpl.
  destruct (truthy d); [|eauto].
  destruct d as [|b|entries]; [eauto| |eauto].
  destruct (save_report _ _ _ _ _) as [[saved'|e] w'] eqn:Hsave.
  - apply save_report_returns in Hsave as ->.
    eexists _, _. split; [done|]. rewrite length_app. simpl. lia.
  - apply save_report_raises in Hsave as [-> ->]. eauto.
Qed.

Lemma process_loop_returns sorted_runs saved w :
  forallb conforming sorted_runs = true →
  ∃ saved' w', process_loop sorted_runs saved w = (Return saved', w') ∧
               (List.length saved' ≤ List.length saved + List.length sorted_runs)%nat.
Proof.
  revert saved w. induction sorted_runs as [|r rest IH]; intros saved w Hc; simpl.
  { eexists _, _. split; [done|]. lia. }
  simpl in Hc. apply andb_prop in Hc as [Hr Hrest].
  destruct (process_one_returns r saved w Hr) as (saved1 & w1 & H1 & Hlen).
  destruct (IH saved1 w1 Hrest) as (saved2 & w2 & H2 & Hlen2).
  exists saved2, w2. unfold bind. rewrite H1. split; [done|]. lia.
Qed.

Lemma process_loop_nonconforming sorted_runs saved w :
  forallb conforming sorted_runs = false →
  ∃ w', process_loop sorted_runs saved w = (Raise ValueError, w').
Proof.
  revert saved w. induction sorted_runs as [|r rest IH]; intros saved w Hc; simpl in *.
  { done. }
  destruct (conforming r) eqn:Hr.
  - destruct (process_one_returns r saved w Hr) as (saved1 & w1 & H1 & _).
    destruct (IH saved1 w1 Hc) as [w' Hw']. exists w'. unfold bind. by rewrite H1.
  - exists w. unfold bind. by rewrite process_one_nonconforming.
Qed.

Lemma select_runs_length run_list sorted_runs :
  select_runs run_list = Return sorted_runs → (List.length sorted_runs ≤ 2)%nat.
Proof.
  unfold select_runs. destruct (Sort.sorted_desc _ _); simpl; [|done].
  intros [= <-]. rewrite length_take. lia.
Qed.

End Iteration.

(** ** Selection (line 33) *)



(** The sort raises exactly when it has to compare a missing key. *)
Lemma insert_cases {A} (key : A → option string) (x : A) (s : list A) :
  match Sort.insert key x s with
  | Return r => r ≡ₚ x :: s ∧
                (s = [] ∨ (is_Some (key x) ∧ ∃ y, head s = Some y ∧ is_Some (key y)))
  | Raise e => e = TypeError
  end.
Proof.
  induction s as [|y s IH]; simpl; [by auto|].
  destruct (key x) as [a|] eqn:Hx, (key y) as [b|] eqn:Hy; simpl; try done.
  destruct (Str.lt a b).
  - destruct (Sort.insert key x s) as [r|e]; simpl; [|done].
    destruct IH as [Hperm _]. split.
    + rewrite Hperm. apply perm_swap.
    + right. split; [done|]. exists y. by rewrite Hy.
  - split; [done|]. right. split; [done|]. exists y. by rewrite Hy.
Qed.

Lemma sorted_desc_cases {A} (key : A → option string) (l : list A) :
  match Sort.sorted_desc key l with
  | Return s => s ≡ₚ l ∧ ((List.length l ≤ 1)%nat ∨ Forall (Sort.has_key key) l)
  | Raise e => e = TypeError
  end.
Proof.
  induction l as [|x l IH]; simpl.
  { split; [done|]. left. lia. }
  destruct (Sort.sorted_desc key l) as [s|e]; simpl; [|done].
  destruct IH as [Hperm Hkeys].
  pose proof (insert_cases key x s) as Hins.
  destruct (Sort.insert key x s) as [r|e]; [|done].
  destruct Hins as [Hr Hs]. split; [by rewrite Hr, Hperm|].
  destruct Hs as [->|(Hx & y & Hy & Hky)].
  { apply Permutation_nil_l in Hperm as <-. left. simpl. lia. }
  right. constructor; [done|].
  destruct Hkeys as [Hshort|Hkeys]; [|done].
  destruct l as [|z [|z' l]]; simpl in Hshort; [done| |lia].
  apply Permutation_singleton_r in Hperm as ->. simpl in Hy. simplify_eq.
  by constructor.
Qed.

Lemma sorted_desc_raises {A} (key : A → option string) (l : list A) :
  (2 ≤ List.length l)%nat → Exists (λ x, key x = None) l →
  Sort.sorted_desc key l = Raise TypeError.
Proof.
  intros Hlen Hex. pose proof (sorted_desc_cases key l) as Hc.
  destruct (Sort.sorted_desc key l) as [s|e]; [|by subst].
  destruct Hc as [_ [Hshort|Hkeys]]; [lia|].
  apply Exists_exists in Hex as (x & Hx & Hnone).
  rewrite Forall_forall in Hkeys. apply Hkeys in Hx as [? ?]. congruence.
Qed.

(** ** Selection and materialization (lines 31 to 79) *)

Section Materialization.
Context `{Platform}.

Ltac run := unfold bind, ret, raise, lift, print, call_sdk, write_xlsx, try_except; simpl.

(** Each recoverable error of a finished execution ends its iteration
    normally: the line is printed after the download, and the files and
    the list of saved files are as before. *)
Lemma recoverable_error_is_logged r saved_files suffix line w :
  Str.upper (status r) = "DONE" →
  date_suffix r = Return suffix →
  recoverable_error r suffix saved_files w = Some line →
  process_one r saved_files w =
    (Return saved_files,
     printed [line]
       (called (get_download_call (id r)) (get_download (sdk w) (id r)).2
         (printed ["Retrieving report detail for execution ID: " +:+ id r] w))).
Proof.
  intros Hdone Hsuffix. unfold recoverable_error, process_one. run.
  rewrite Hsuffix, Hdone. simpl.
  destruct (get_download (sdk w) (id r)) as [d s]. simpl.
  destruct (truthy d); [|by intros [= <-]].
  destruct d as [|b|entries]; [by intros [= <-]| |by intros [= <-]].
  destruct (save_report _ _ _ _ _) as [[saved'|e] w'] eqn:Hsave; [done|].
  intros [= <-]. by apply save_report_raises in Hsave as [-> ->].
Qed.

(** C4, amended.  When the selection returns and every selected record has
    a date suffix ([created_on] absent, or conforming to the format once cut
    to 26 characters), no exception escapes [process_executions], whatever
    the downloads, the decoder, the CSV reader and the spreadsheet writer
    do, and at most two files are reported as saved; an empty download, a
    download that is not [bytes] and a failure of decoding, parsing or
    writing each end their iteration normally with a line on the
    console. *)
Theorem process_executions_returns run_list sorted_runs w :
  select_runs run_list = Return sorted_runs →
  forallb conforming sorted_runs = true →
  (∃ saved_files w',
     process_executions run_list w = (Return saved_files, w') ∧
     (List.length saved_files ≤ 2)%nat) ∧
  (∀ r suffix saved_files line w0,
     r ∈ sorted_runs → Str.upper (status r) = "DONE" → date_suffix r = Return suffix →
     recoverable_error r suffix saved_files w0 = Some line →
     ∃ w1, process_one r saved_files w0 = (Return saved_files, w1) ∧
           files w1 = files w0 ∧ console w1 = console w0 ++
             ["Retrieving report detail for execution ID: " +:+ id r; line]).
Proof.
  intros Hsel Hconf. split.
  - destruct (process_loop_returns sorted_runs [] w Hconf) as (saved & w' & Hloop & Hlen).
    exists saved, w'. unfold process_executions. run. rewrite Hsel. split; [done|].
    apply select_runs_length in Hsel. simpl in Hlen. lia.
  - intros r suffix saved_files line w0 _ Hdone Hsuffix Hline.
    eexists. split; [by eapply recoverable_error_is_logged|].
    split; [done|]. simpl. by rewrite <- app_assoc.
Qed.

(** C5, on the code: two records without [created_on] never reach the
    loop.  The sort compares their keys, both [None], and the [TypeError]
    leaves [process_executions] before any download or file. *)
Theorem process_executions_undated_pair status1 id1 rpt1 status2 id2 rpt2 w :
  process_executions
    [ {| status := status1; id := id1; scheduled_report_id := rpt1; created_on := None |};
      {| status := status2; id := id2; scheduled_report_id := rpt2; created_on := None |} ] w
  = (Raise TypeError, w).
Proof. reflexivity. Qed.

(** The suffix the loop would use for such a record, had the sort let it
    through. *)
Lemma process_executions_undated_single r w :
  created_on r = None →
  process_executions [r] w = process_one r [] w ∧ date_suffix r = Return "unknown".
Proof.
  intros Hr. split; [|by apply date_suffix_unknown].
  unfold process_executions, select_runs, bind, lift, ret. simpl.
  unfold bind, ret.
  by destruct (process_one r [] w) as [[?|?] ?].
Qed.

(** C8.  A selected record whose status is "DONE" in any letter case and
    whose download is empty leaves the files and the list of saved files as
    they were, prints that the report could not be retrieved, and the loop
    goes on with the next record.  The download is asked for once the date
    suffix of the record is derived, hence the second premise. *)
Theorem empty_download_is_skipped r rest saved_files suffix w :
  Str.upper (status r) = "DONE" →
  date_suffix r = Return suffix →
  truthy (get_download (sdk w) (id r)).1 = false →
  let w' :=
    printed ["Unable to retrieve report for execution " +:+ id r +:+ " of " +:+
             scheduled_report_id r +:+ "."]
      (called (get_download_call (id r)) (get_download (sdk w) (id r)).2
        (printed ["Retrieving report detail for execution ID: " +:+ id r] w)) in
  process_one r saved_files w = (Return saved_files, w') ∧
  files w' = files w ∧
  process_loop (r :: rest) saved_files w = process_loop rest saved_files w'.
Proof.
  intros Hdone Hsuffix Hempty w'.
  assert (process_one r saved_files w = (Return saved_files, w')) as Hone.
  { unfold process_one. run. rewrite Hsuffix, Hdone. simpl.
    subst w'. destruct (get_download (sdk w) (id r)) as [d s]. simpl in *.
    by rewrite Hempty. }
  split; [done|]. split; [done|].
  simpl. unfold bind. by rewrite Hone.
Qed.

(** The other recoverable cases of the loop body. *)
Lemma not_bytes_is_skipped r saved_files suffix entries s w :
  Str.upper (status r) = "DONE" →
  date_suffix r = Return suffix →
  get_download (sdk w) (id r) = (PyDict entries, s) → entries ≠ [] →
  process_one r saved_files w =
    (Return saved_files,
     printed ["Report detail is not in bytes format, cannot process execution " +:+ id r +:+ "."]
       (called (get_download_call (id r)) s
         (printed ["Retrieving report detail for execution ID: " +:+ id r] w))).
Proof.
  intros Hdone Hsuffix Hd Hne. unfold process_one. run.
  rewrite Hsuffix, Hdone. simpl. rewrite Hd. simpl.
  by rewrite bool_decide_eq_false_2.
Qed.

Lemma failed_save_is_skipped r saved_files suffix b s w e w1 :
  Str.upper (status r) = "DONE" →
  date_suffix r = Return suffix →
  get_download (sdk w) (id r) = (PyBytes b, s) → b ≠ [] →
  save_report (id r) suffix b saved_files
    (called (get_download_call (id r)) s
      (printed ["Retrieving report detail for execution ID: " +:+ id r] w)) = (Raise e, w1) →
  process_one r saved_files w =
    (Return saved_files,
     printed ["Failed to process report " +:+ id r +:+ ". Error: " +:+ str_of_exn e]
       (called (get_download_call (id r)) s
         (printed ["Retrieving report detail for execution ID: " +:+ id r] w))).
Proof.
  intros Hdone Hsuffix Hd Hne Hsave. unfold process_one. run.
  rewrite Hsuffix, Hdone. simpl. rewrite Hd. simpl.
  rewrite bool_decide_eq_false_2 by done. simpl.
  unfold called, printed in *. simpl in *. rewrite Hsave.
  by apply save_report_raises in Hsave as [-> ->].
Qed.

Lemma unfinished_is_skipped r saved_files suffix w :
  Str.upper (status r) ≠ "DONE" →
  date_suffix r = Return suffix →
  process_one r saved_files w =
    (Return saved_files, printed ["Skipping " +:+ id r +:+ " as not yet finished."] w).
Proof.
  intros Hdone Hsuffix. unfold process_one. run. rewrite Hsuffix.
  by apply String.eqb_neq in Hdone as ->.
Qed.

(** C10.  The date suffix is derived first in the loop body, outside the
    [try]: a selected record whose [created_on] is there and does not
    conform raises [ValueError] out of its iteration whatever its status,
    with nothing printed, asked or written by that iteration, and the
    exception leaves [process_executions] and the program. *)
Theorem nonconforming_created_on_aborts run_list sorted_runs r w :
  select_runs run_list = Return sorted_runs →
  r ∈ sorted_runs →
  conforming r = false →
  is_Some (created_on r) ∧
  (∀ saved_files w0, process_one r saved_files w0 = (Raise ValueError, w0)) ∧
  (∃ w', process_executions run_list w = (Raise ValueError, w')) ∧
  (∀ w0 id_list w1,
     retrieve_report_executions CROWDSTRIKE_REPORT_ID w0 = (Return id_list, w1) →
     get_report_execution_runs id_list w1 = (Return run_list, w) →
     ∃ w', main w0 = (Raise ValueError, w')).
Proof.
  intros Hsel Hr Hconf.
  assert (∃ w', process_executions run_list w = (Raise ValueError, w')) as [w' Hw'].
  { destruct (process_loop_nonconforming sorted_runs [] w) as [w' Hw'].
    - apply not_true_is_false. intros Hall. rewrite forallb_forall in Hall.
      apply list_elem_of_In, Hall in Hr. congruence.
    - exists w'. unfold process_executions. run. by rewrite Hsel. }
  split; [|split; [|split]].
  - destruct (created_on r) eqn:Hc; [done|].
    unfold conforming in Hconf. by rewrite date_suffix_unknown in Hconf.
  - intros. by apply process_one_nonconforming.
  - by exists w'.
  - intros w0 id_list w1 H1 H2. exists w'. unfold main, bind. by rewrite H1, H2, Hw'.
Qed.

End Materialization.

(** ** Comparison (lines 85 to 102) *)

Section Comparison.
Context `{Platform}.

Lemma matched_rows_are_dropped (l : row) (matches : list row) :
  filter (λ j : row * option row * merge_indicator, j.2 = left_only)
         ((λ r, (l, Some r, both)) <$> matches) = [].
Proof.
  induction matches as [|m matches IH]; [done|].
  rewrite fmap_cons. rewrite filter_cons. rewrite IH. by case_decide.
Qed.

(** The join with its indicator and the filter on [left_only] keep the rows
    of the left table that no row of the right table equals on the five
    columns. *)
Lemma left_only_rows (left right : DataFrame) :
  (λ j, j.1.1) <$> filter (λ j, j.2 = left_only) (merge_left left right) =
  filter (λ r, Forall (λ r', identity r' ≠ identity r) right) left.
Proof.
  unfold merge_left. induction left as [|l left IH]; [done|].
  rewrite bind_cons, filter_app, fmap_app, IH, filter_cons. clear IH.
  destruct (filter (λ r, identity r = identity l) right) as [|m matches] eqn:Hm.
  - rewrite decide_True; [done|].
    apply Forall_forall. intros r' Hr' Heq.
    assert (r' ∈ filter (λ r, identity r = identity l) right) as Hin
      by (by apply list_elem_of_filter).
    rewrite Hm in Hin. by apply not_elem_of_nil in Hin.
  - rewrite matched_rows_are_dropped, decide_False; [done|].
    intros Hall. rewrite Forall_forall in Hall.
    assert (m ∈ filter (λ r, identity r = identity l) right) as Hin
      by (rewrite Hm; left).
    apply list_elem_of_filter in Hin as [Heq Hin].
    by apply Hall in Hin.
Qed.

Lemma unique_values_spec (older_data newer_data : DataFrame) :
  identity_cells <$> unique_values older_data newer_data =
  rows_only_in_second older_data newer_data.
Proof.
  unfold unique_values, rows_only_in_second, dropna_cve. by rewrite left_only_rows.
Qed.

Lemma rows_only_in_second_self (df : DataFrame) : rows_only_in_second df df = [].
Proof.
  unfold rows_only_in_second.
  generalize (filter (λ r, cve_id r ≠ None) df). intros t.
  assert (∀ s, s ⊆ t → filter (λ r, Forall (λ r', identity r' ≠ identity r) t) s = [])
    as Hnone.
  { induction s as [|r s IH]; intros Hsub; [done|].
    rewrite filter_cons_False.
    - apply IH. intros x Hx. apply Hsub. by right.
    - intros Hall. rewrite Forall_forall in Hall.
      apply (Hall r); [|done]. apply Hsub. by left. }
  by rewrite Hnone.
Qed.

Lemma compare_excel_files_run file1 file2 content1 content2 first second w :
  files w !! file1 = Some content1 → read_excel content1 = Ok first →
  files w !! file2 = Some content2 → read_excel content2 = Ok second →
  write_error (current_date +:+ "_ImageVulnerabilityAssessment.xlsx") = None →
  let output_file_name := current_date +:+ "_ImageVulnerabilityAssessment.xlsx" in
  compare_excel_files file1 file2 w =
    (Return output_file_name,
     printed ["The data has been successfully saved to " +:+ output_file_name +:+ "."]
       (written output_file_name (identity_header :: rows_only_in_second first second) w)).
Proof.
  intros Hf1 Hr1 Hf2 Hr2 Hw out. subst out.
  unfold compare_excel_files, bind, read_file, write_xlsx, print, ret.
  rewrite Hf1, Hr1. simpl. rewrite Hf2, Hr2. simpl. rewrite Hw.
  by rewrite unique_values_spec.
Qed.


(** C9.  Comparing a file with itself writes the header and no row. *)
Theorem compare_file_with_itself file content df w :
  files w !! file = Some content → read_excel content = Ok df →
  write_error (current_date +:+ "_ImageVulnerabilityAssessment.xlsx") = None →
  unique_values df df = [] ∧
  ∃ w', compare_excel_files file file w =
          (Return (current_date +:+ "_ImageVulnerabilityAssessment.xlsx"), w') ∧
        files w' !! (current_date +:+ "_ImageVulnerabilityAssessment.xlsx") =
          Some [identity_header].
Proof.
  intros Hf Hr Hw. split.
  - apply (fmap_nil_inv identity_cells).
    by rewrite unique_values_spec, rows_only_in_second_self.
  - eexists. split; [by eapply compare_excel_files_run|].
    simpl. rewrite lookup_insert_eq. by rewrite rows_only_in_second_self.
Qed.

(** ** The program (lines 104 to 115) *)

Lemma process_executions_length run_list saved_files w w' :
  process_executions run_list w = (Return saved_files, w') →
  (List.length saved_files ≤ 2)%nat.
Proof.
  unfold process_executions, bind, lift.
  destruct (select_runs run_list) as [sorted_runs|e] eqn:Hsel; [|done].
  intros Hloop. apply select_runs_length in Hsel.
  destruct (forallb conforming sorted_runs) eqn:Hconf.
  - destruct (process_loop_returns sorted_runs [] w Hconf) as (s & w1 & Hs & Hlen).
    rewrite Hs in Hloop. simplify_eq. simpl in Hlen. lia.
  - destruct (process_loop_nonconforming sorted_runs [] w Hconf) as (w1 & Hs).
    by rewrite Hs in Hloop.
Qed.

(** C6.  When stage 4.3 saved fewer than two files, the program prints
    that there are not enough files, reads and writes no file, makes no
    further SDK call, and ends normally. *)
Theorem too_few_files_skip_comparison w id_list w1 run_list w2 saved_files w3 :
  retrieve_report_executions CROWDSTRIKE_REPORT_ID w = (Return id_list, w1) →
  get_report_execution_runs id_list w1 = (Return run_list, w2) →
  process_executions run_list w2 = (Return saved_files, w3) →
  (List.length saved_files < 2)%nat →
  main w = (Return tt, printed ["Not enough files saved for comparison."] w3) ∧
  files (printed ["Not enough files saved for comparison."] w3) = files w3 ∧
  calls (printed ["Not enough files saved for comparison."] w3) = calls w3.
Proof.
  intros H1 H2 H3 Hlen. split; [|done].
  unfold main, bind. rewrite H1, H2, H3.
  by destruct saved_files as [|f1 [|f2 [|f3 fs]]]; simpl in Hlen; try lia.
Qed.

(** C7.  A status code other than 200 from the execution query, or from
    the status fetch after a successful query, ends the program at once
    with [SystemExit] and its message: the failing call is the last SDK
    call, made once, and no file is touched. *)
Theorem non_200_terminates w :
  let filter := "scheduled_report_id:'" +:+ fmt CROWDSTRIKE_REPORT_ID +:+ "'" in
  let query := reports_executions_query (sdk w) filter in
  let w1 := called (reports_executions_query_call filter) query.2
              (printed ["Searching for executions of " +:+ fmt CROWDSTRIKE_REPORT_ID] w) in
  let id_list := resources query.1 in
  let get := report_executions_get (sdk w1) id_list in
  let w2 := called (report_executions_get_call id_list) get.2
              (printed ["Found " +:+ Str.of_nat (List.length id_list) +:+
                        " executions of this report available."] w1) in
  (status_code query.1 ≠ 200%Z →
     main w = (Raise (SystemExit
       "Unable to retrieve report executions from the CrowdStrike API, check API key permissions."),
       w1) ∧
     files w1 = files w ∧
     calls w1 = calls w ++ [reports_executions_query_call filter]) ∧
  (status_code query.1 = 200%Z → status_code get.1 ≠ 200%Z →
     main w = (Raise (SystemExit
       "Unable to retrieve execution statuses from the CrowdStrike API."), w2) ∧
     files w2 = files w ∧
     calls w2 = calls w ++ [reports_executions_query_call filter;
                            report_executions_get_call id_list]).
Proof.
  intros filter query w1 id_list get w2. split.
  - intros Hcode. split; [|done].
    unfold main, retrieve_report_executions, bind, print, call_sdk, raise. simpl.
    fold filter. fold query. destruct query as [lookup s] eqn:Hq. simpl in *.
    apply Z.eqb_neq in Hcode. by rewrite Hcode.
  - intros Hcode Hcode2. split; [|split; [done|]].
    + unfold main, retrieve_report_executions, get_report_execution_runs,
        bind, print, call_sdk, raise, ret. simpl.
      fold filter. fold query. subst w2 get w1 id_list.
      destruct query as [lookup s] eqn:Hq. simpl in *.
      apply Z.eqb_eq in Hcode. rewrite Hcode. simpl.
      destruct (report_executions_get s (resources lookup)) as [lookup2 s2] eqn:Hg.
      simpl in *. apply Z.eqb_neq in Hcode2. by rewrite Hcode2.
    + simpl. by rewrite <- app_assoc.
Qed.

End Comparison.

(** ** The examples, run *)

Section Runs.
Import Examples.

(** C1, on the code.  [A] is the more recent execution and comes first in
    the selection, so its file is [file1] and the file of [B] is [file2]:
    the comparison writes [CVE-3], which only the older report [B] has,
    and not [CVE-2], which only the newer report [A] has. *)
Theorem main_reports_rows_of_older_run :
  select_runs [run_B; run_A] = Return [run_A; run_B] ∧
  (@main (Scripted.platform two_done) (Scripted.start two_done)).1 = Return tt ∧
  let w := (@main (Scripted.platform two_done) (Scripted.start two_done)).2 in
  files w !! "A_20240102.xlsx" = Some sheet_A ∧
  files w !! "B_20240101.xlsx" = Some sheet_B ∧
  files w !! "2024_01_03_ImageVulnerabilityAssessment.xlsx" =
    Some [identity_header; finding "CVE-3"].
Proof. vm_compute. repeat split. Qed.

(** C4 as stated fails: the timestamp of an execution in progress, given
    with milliseconds, makes [process_executions] raise. *)
Lemma process_executions_raises_on_millis :
  @process_executions (Scripted.platform two_done) [run_millis] (Scripted.start two_done)
    = (Raise ValueError, Scripted.start two_done) ∧
  ¬ ∃ saved_files w',
      @process_executions (Scripted.platform two_done) [run_millis] (Scripted.start two_done)
        = (Return saved_files, w').
Proof. split; [reflexivity|]. by intros (? & ? & ?). Qed.

(** [A] is the most recent; [B] and [C] tie and [B] came first. *)
Example select_runs_tie : select_runs [run_B; run_C; run_A] = Return [run_A; run_B].
Proof. reflexivity. Qed.


Lemma process_executions_returns_witness :
  select_runs [run_B; run_A] = Return [run_A; run_B] ∧
  forallb conforming [run_A; run_B] = true ∧
  ∃ saved_files w',
    @process_executions (Scripted.platform two_done) [run_B; run_A] (Scripted.start two_done)
      = (Return saved_files, w') ∧
    (List.length saved_files ≤ 2)%nat.
Proof.
  split; [reflexivity|]. split; [reflexivity|].
  apply (@process_executions_returns (Scripted.platform two_done)
           [run_B; run_A] [run_A; run_B]); reflexivity.
Defined.

Lemma empty_download_is_skipped_witness :
  let w := Scripted.start empty_payloads in
  let w' :=
    printed ["Unable to retrieve report for execution B of rpt."]
      (called (get_download_call "B") (tt : @sdk_state (Scripted.platform empty_payloads))
        (printed ["Retrieving report detail for execution ID: B"] w)) in
  @process_one (Scripted.platform empty_payloads) run_B [] w = (Return [], w') ∧
  files w' = files w ∧
  @process_loop (Scripted.platform empty_payloads) [run_B; run_A] [] w
    = @process_loop (Scripted.platform empty_payloads) [run_A] [] w'.
Proof.
  apply (@empty_download_is_skipped (Scripted.platform empty_payloads) run_B [run_A] [] "20240101");
    reflexivity.
Defined.

Lemma nonconforming_created_on_aborts_witness :
  is_Some (created_on run_millis) ∧
  (∀ saved_files w0,
     @process_one (Scripted.platform two_done) run_millis saved_files w0 = (Raise ValueError, w0)) ∧
  (∃ w', @process_executions (Scripted.platform two_done) [run_B; run_millis] (Scripted.start two_done)
           = (Raise ValueError, w')) ∧
  (∀ w0 id_list w1,
     @retrieve_report_executions (Scripted.platform two_done) (Some "rpt") w0
       = (Return id_list, w1) →
     @get_report_execution_runs (Scripted.platform two_done) id_list w1
       = (Return [run_B; run_millis], Scripted.start two_done) →
     ∃ w', @main (Scripted.platform two_done) w0 = (Raise ValueError, w')).
Proof.
  apply (@nonconforming_created_on_aborts (Scripted.platform two_done) [run_B; run_millis]
           [run_millis; run_B] run_millis (Scripted.start two_done)).
  - reflexivity.
  - left.
  - reflexivity.
Defined.


Lemma compare_file_with_itself_witness :
  ∃ w', @compare_excel_files (Scripted.platform two_done) "A_20240102.xlsx" "A_20240102.xlsx" two_files
          = (Return "2024_01_03_ImageVulnerabilityAssessment.xlsx", w') ∧
        files w' !! "2024_01_03_ImageVulnerabilityAssessment.xlsx"
          = Some [identity_header].
Proof.
  destruct (@compare_file_with_itself (Scripted.platform two_done) "A_20240102.xlsx" sheet_A
              (default [] (mapM (Scripted.table_row identity_header) (tail sheet_A)))
              two_files) as (_ & w' & Hrun & Hfile); try reflexivity.
  exists w'. split; [exact Hrun|exact Hfile].
Defined.

Lemma too_few_files_skip_comparison_witness :
  ∃ w3, @main (Scripted.platform one_done) (Scripted.start one_done)
          = (Return tt, printed ["Not enough files saved for comparison."] w3) ∧
        dom (files w3) = {["A_20240102.xlsx"]}.
Proof.
  eexists. split.
  - eapply (@too_few_files_skip_comparison (Scripted.platform one_done) (Scripted.start one_done)).
    + vm_compute. reflexivity.
    + vm_compute. reflexivity.
    + vm_compute. reflexivity.
    + simpl. lia.
  - vm_compute. reflexivity.
Defined.

Lemma non_200_terminates_witness :
  (∃ w', @main (Scripted.platform query_refused) (Scripted.start query_refused)
           = (Raise (SystemExit
               "Unable to retrieve report executions from the CrowdStrike API, check API key permissions."),
              w') ∧
         calls w' = [reports_executions_query_call "scheduled_report_id:'rpt'"] ∧
         files w' = ∅) ∧
  (∃ w', @main (Scripted.platform get_failed) (Scripted.start get_failed)
           = (Raise (SystemExit
               "Unable to retrieve execution statuses from the CrowdStrike API."), w') ∧
         calls w' = [reports_executions_query_call "scheduled_report_id:'rpt'";
                     report_executions_get_call ["B"; "A"]] ∧
         files w' = ∅).
Proof.
  split.
  - pose proof (@non_200_terminates (Scripted.platform query_refused) (Scripted.start query_refused)) as Hw.
    simpl in Hw. destruct Hw as [(Hmain & Hfiles & Hcalls) _]; [done|].
    eexists. split; [exact Hmain|]. done.
  - pose proof (@non_200_terminates (Scripted.platform get_failed) (Scripted.start get_failed)) as Hw.
    simpl in Hw. destruct Hw as [_ Hw]. destruct Hw as (Hmain & Hfiles & Hcalls); [done|done|].
    eexists. split; [exact Hmain|]. done.
Defined.

End Runs.

(** * Further properties *)

(** ** What one iteration does to the world *)

Section Effects.
Context `{Platform}.

Ltac run := unfold bind, ret, raise, lift, print, call_sdk, write_xlsx, try_except; simpl.

Lemma append_rows_accepted sheet rows :
  Forall (λ r, append_error r = None) rows →
  append_rows sheet rows = Return (sheet ++ ((λ r : list string, Some <$> r) <$> rows)).
Proof.
  intros Hrows. revert sheet.
  induction Hrows as [|r rows Hr _ IH]; intros sheet; simpl.
  - by rewrite app_nil_r.
  - rewrite Hr, IH. by rewrite <- app_assoc.
Qed.

(** When the guarded block returns, one file was written, one name was
    appended, one line was printed. *)
Lemma save_report_effects exec_id suffix b saved w saved' w' :
  save_report exec_id suffix b saved w = (Return saved', w') →
  let name := exec_id +:+ "_" +:+ suffix +:+ ".xlsx" in
  saved' = saved ++ [name] ∧
  ∃ sheet, w' = printed [exec_id +:+ " successfully saved to " +:+ name]
                  (written name sheet w).
Proof.
  unfold save_report. run.
  destruct (decode_utf8 b) as [decoded|msg]; simpl; [|done].
  destruct (csv_reader (splitlines decoded)) as [rows err]; simpl.
  destruct (append_rows [] rows) as [sheet|e0]; [|done].
  destruct err as [msg|]; [done|].
  destruct (write_error _); [done|]. intros [= <- <-]. eauto.
Qed.

(** An iteration that returns asked for a download exactly when the record
    is finished, left the files alone or wrote the one file it reports, and
    only added to the console. *)
Lemma process_one_effects r saved w saved' w' :
  process_one r saved w = (Return saved', w') →
  calls w' = calls w ++ (if is_done r then [get_download_call (id r)] else []) ∧
  console w `prefix_of` console w' ∧
  ((saved' = saved ∧ files w' = files w) ∨
   (is_done r = true ∧ saved' = saved ++ [excel_filename r] ∧
    ∃ sheet, files w' = <[excel_filename r := sheet]> (files w))).
Proof.
  unfold process_one, excel_filename, is_done. run.
  destruct (date_suffix r) as [suffix|e]; [|done].
  destruct (String.eqb _ _).
  2:{ intros [= <- <-]. simpl. rewrite app_nil_r.
      split; [done|]. split; [by apply prefix_app_r|]. by left. }
  destruct (get_download (sdk w) (id r)) as [d s]. simpl.
  assert (∀ line, console w `prefix_of`
            (console w ++ ["Retrieving report detail for execution ID: " +:+ id r]) ++ [line])
    as Hprefix by (intros; rewrite <- app_assoc; by apply prefix_app_r).
  destruct (truthy d).
  2:{ intros [= <- <-]. simpl. split; [done|]. split; [done|]. by left. }
  destruct d as [|b|entries].
  1,3: intros [= <- <-]; simpl; split; [done|]; split; [done|]; by left.
  destruct (save_report _ _ _ _ _) as [[saved1|e] w1] eqn:Hsave.
  - intros [= <- <-]. apply save_report_effects in Hsave as [-> [sheet ->]]. simpl.
    split; [done|]. split; [done|]. right. eauto.
  - apply save_report_raises in Hsave as [-> ->]. intros [= <- <-]. simpl.
    split; [done|]. split; [done|]. by left.
Qed.

(** An iteration raises before it does anything. *)
Lemma process_one_raises r saved w e w' :
  process_one r saved w = (Raise e, w') →
  e = ValueError ∧ w' = w ∧ conforming r = false.
Proof.
  destruct (conforming r) eqn:Hc.
  - destruct (process_one_returns r saved w Hc) as (? & ? & Hr & _). by rewrite Hr.
  - rewrite process_one_nonconforming by done. by intros [= <- <-].
Qed.

Lemma process_loop_effects sorted_runs saved w saved' w' :
  process_loop sorted_runs saved w = (Return saved', w') →
  calls w' = calls w ++ ((λ r, get_download_call (id r)) <$> filter is_done sorted_runs) ∧
  console w `prefix_of` console w' ∧
  ∃ new, saved' = saved ++ new ∧
         new `sublist_of` (excel_filename <$> filter is_done sorted_runs) ∧
         (∀ name, name ∈ new → is_Some (files w' !! name)) ∧
         (∀ name, name ∉ new → files w' !! name = files w !! name).
Proof.
  revert saved w. induction sorted_runs as [|r rest IH]; intros saved w; simpl.
  { unfold ret. intros [= <- <-]. rewrite app_nil_r. split; [done|]. split; [done|].
    exists []. rewrite app_nil_r. split; [done|]. split; [done|]. split; [|done].
    intros name Hname. by apply not_elem_of_nil in Hname. }
  unfold bind. destruct (process_one r saved w) as [[saved1|e] w1] eqn:Hone; [|done].
  intros Hloop. apply IH in Hloop as (Hcalls & Hconsole & new & -> & Hsub & Hin & Hout).
  apply process_one_effects in Hone as (Hcalls1 & Hconsole1 & Hone).
  rewrite filter_cons. split; [|split].
  - rewrite Hcalls, Hcalls1. destruct (is_done r); simpl.
    + by rewrite <- app_assoc.
    + by rewrite app_nil_r.
  - by etrans.
  - destruct Hone as [[-> Hfiles]|(Hdone & -> & sheet & Hfiles)].
    + exists new. split; [done|]. split; [|split].
      * case_decide; [|done]. rewrite fmap_cons. by apply sublist_cons.
      * done.
      * intros name Hname. by rewrite Hout, Hfiles.
    + exists (excel_filename r :: new). rewrite <- app_assoc. split; [done|]. split; [|split].
      * rewrite decide_True by (by rewrite Hdone). rewrite fmap_cons. by apply sublist_skip.
      * intros name Hname. destruct (decide (name ∈ new)) as [Hnew|Hnew]; [by apply Hin|].
        apply elem_of_cons in Hname as [->|Hname]; [|done].
        rewrite Hout, Hfiles by done. rewrite lookup_insert_eq. by eexists.
      * intros name Hname. apply not_elem_of_cons in Hname as [Hne Hname].
        rewrite Hout, Hfiles by done. by apply lookup_insert_ne.
Qed.

End Effects.

(** ** Selection and materialization, as a whole *)

Section Stage3.
Context `{Platform}.

Lemma process_executions_inv run_list w saved_files w' :
  process_executions run_list w = (Return saved_files, w') →
  ∃ sorted_runs, select_runs run_list = Return sorted_runs ∧
                 process_loop sorted_runs [] w = (Return saved_files, w').
Proof.
  unfold process_executions, bind, lift.
  destruct (select_runs run_list) as [sorted_runs|e]; [|done]. eauto.
Qed.

(** X3.  When [process_executions] returns, the SDK was asked for the report of
    each selected record whose status is "DONE", once, in the order of the
    selection, and for nothing else. *)
Theorem process_executions_downloads_finished_runs run_list w saved_files w' :
  process_executions run_list w = (Return saved_files, w') →
  ∃ sorted_runs,
    select_runs run_list = Return sorted_runs ∧
    calls w' = calls w ++ ((λ r, get_download_call (id r)) <$> filter is_done sorted_runs).
Proof.
  intros (sorted_runs & Hsel & Hloop)%process_executions_inv.
  exists sorted_runs. split; [done|].
  by apply process_loop_effects in Hloop as (Hcalls & _).
Qed.

(** X4.  The names [process_executions] returns are names of selected finished
    records, [<id>_<date suffix>.xlsx], in the order of the selection, and
    each of them is a file when it returns. *)
Theorem process_executions_saved_files_exist run_list w saved_files w' :
  process_executions run_list w = (Return saved_files, w') →
  ∃ sorted_runs,
    select_runs run_list = Return sorted_runs ∧
    saved_files `sublist_of` (excel_filename <$> filter is_done sorted_runs) ∧
    ∀ name, name ∈ saved_files → is_Some (files w' !! name).
Proof.
  intros (sorted_runs & Hsel & Hloop)%process_executions_inv.
  exists sorted_runs. split; [done|].
  apply process_loop_effects in Hloop as (_ & _ & new & -> & Hsub & Hin & _).
  by split.
Qed.

(** X5.  [process_executions] changes no file but the ones it reports as saved,
    removes none, and only adds lines to the console. *)
Theorem process_executions_keeps_other_files run_list w saved_files w' :
  process_executions run_list w = (Return saved_files, w') →
  (∀ name, name ∉ saved_files → files w' !! name = files w !! name) ∧
  (∀ name, is_Some (files w !! name) → is_Some (files w' !! name)) ∧
  console w `prefix_of` console w'.
Proof.
  intros (sorted_runs & Hsel & Hloop)%process_executions_inv.
  apply process_loop_effects in Hloop as (_ & Hconsole & new & -> & _ & Hin & Hout).
  simpl in *. split; [done|]. split; [|done].
  intros name Hname. destruct (decide (name ∈ new)); [by apply Hin|by rewrite Hout].
Qed.

Lemma select_runs_raise_cases run_list e :
  select_runs run_list = Raise e →
  e = TypeError ∧ (2 ≤ List.length run_list)%nat ∧
  Exists (λ r, created_on r = None) run_list.
Proof.
  unfold select_runs. intros Hraise.
  pose proof (sorted_desc_cases created_on run_list) as Hcases.
  destruct (Sort.sorted_desc created_on run_list) as [s|e'] eqn:Hs; [done|].
  simpl in Hraise. simplify_eq. split; [done|].
  destruct (decide (List.length run_list ≤ 1)%nat) as [Hshort|Hlong].
  { by rewrite SortFacts.sorted_desc_short in Hs. }
  split; [lia|].
  destruct (decide (Exists (λ r, created_on r = None) run_list)) as [|Hnone]; [done|].
  apply not_Exists_Forall in Hnone; [|apply _].
  destruct (SortFacts.sorted_desc_spec created_on run_list) as (s & Hs' & _).
  { eapply Forall_impl; [exact Hnone|]. intros r Hr. simpl in Hr.
    unfold Sort.has_key. by destruct (created_on r); [eexists|]. }
  congruence.
Qed.

Lemma process_loop_raise_cases runs saved w e w' :
  process_loop runs saved w = (Raise e, w') →
  e = ValueError ∧ ∃ r, r ∈ runs ∧ conforming r = false.
Proof.
  revert saved w. induction runs as [|r runs IH]; intros saved w; simpl; [done|].
  unfold bind. destruct (process_one r saved w) as [[saved1|e1] w1] eqn:Hone.
  - intros (He & r' & Hr' & Hc)%IH. split; [done|]. exists r'. split; [by right|done].
  - intros [= -> ->]. apply process_one_raises in Hone as (-> & _ & Hc).
    split; [done|]. exists r. split; [by left|done].
Qed.

Lemma process_executions_raise_cases run_list w e w' :
  process_executions run_list w = (Raise e, w') →
  (e = TypeError ∧ w' = w ∧ (2 ≤ List.length run_list)%nat ∧
   Exists (λ r, created_on r = None) run_list) ∨
  (e = ValueError ∧ ∃ sorted_runs r,
     select_runs run_list = Return sorted_runs ∧ r ∈ sorted_runs ∧ conforming r = false).
Proof.
  unfold process_executions, bind, lift.
  destruct (select_runs run_list) as [sorted_runs|e0] eqn:Hsel.
  - intros (-> & r & Hr & Hc)%process_loop_raise_cases. right.
    split; [done|]. by exists sorted_runs, r.
  - intros [= <- <-]. left. by apply select_runs_raise_cases in Hsel as (-> & Hlen & Hex).
Qed.

(** X1.  The selection raises exactly when the list has two or more records and
    one of them has no [created_on], and then it raises [TypeError]. *)
Theorem select_runs_raises_iff run_list e :
  select_runs run_list = Raise e ↔
  e = TypeError ∧ (2 ≤ List.length run_list)%nat ∧
  Exists (λ r, created_on r = None) run_list.
Proof.
  split; [apply select_runs_raise_cases|].
  intros (-> & Hlen & Hex). unfold select_runs. by rewrite sorted_desc_raises.
Qed.

(** X2.  [process_executions] raises in two ways only: [TypeError] from the
    sort, before anything is printed, asked or written, or [ValueError]
    from the date suffix of a selected record. *)
Theorem process_executions_raises_inv run_list w e w' :
  process_executions run_list w = (Raise e, w') →
  (e = TypeError ∧ w' = w ∧ (2 ≤ List.length run_list)%nat ∧
   Exists (λ r, created_on r = None) run_list) ∨
  (e = ValueError ∧ ∃ sorted_runs r,
     select_runs run_list = Return sorted_runs ∧ r ∈ sorted_runs ∧ conforming r = false).
Proof. apply process_executions_raise_cases. Qed.

(** X7.  A finished execution whose report is downloaded, decoded, parsed and
    written without error is saved as [<id>_<date suffix>.xlsx]: the sheet
    holds the rows of the CSV reader in their order, each field a cell, the
    name is appended to the saved files, and two lines are printed. *)
Theorem finished_report_is_saved r saved_files suffix b s text rows w :
  is_done r = true →
  date_suffix r = Return suffix →
  get_download (sdk w) (id r) = (PyBytes b, s) → b ≠ [] →
  decode_utf8 b = Ok text →
  csv_reader (splitlines text) = (rows, None) →
  Forall (λ row, append_error row = None) rows →
  write_error (id r +:+ "_" +:+ suffix +:+ ".xlsx") = None →
  let name := id r +:+ "_" +:+ suffix +:+ ".xlsx" in
  process_one r saved_files w =
    (Return (saved_files ++ [name]),
     printed [id r +:+ " successfully saved to " +:+ name]
       (written name ((λ row : list string, Some <$> row) <$> rows)
         (called (get_download_call (id r)) s
           (printed ["Retrieving report detail for execution ID: " +:+ id r] w)))).
Proof.
  intros Hdone Hsuffix Hd Hb Hdecode Hcsv Hrows Hwrite name. subst name.
  unfold is_done in Hdone.
  unfold process_one, save_report, bind, ret, raise, lift, print, call_sdk, write_xlsx,
    try_except. simpl.
  rewrite Hsuffix, Hdone. simpl. rewrite Hd. simpl.
  rewrite bool_decide_eq_false_2 by done. simpl.
  rewrite Hdecode. simpl. rewrite Hcsv. simpl.
  rewrite append_rows_accepted by done. simpl. by rewrite Hwrite.
Qed.

End Stage3.

(** ** The comparison, as a function of the two tables *)

Section Tables.
Context `{Platform}.

Lemma unique_values_filter (older_data newer_data : DataFrame) :
  unique_values older_data newer_data =
  filter (λ r, Forall (λ r', identity r' ≠ identity r) (dropna_cve older_data))
         (dropna_cve newer_data).
Proof. unfold unique_values. apply left_only_rows. Qed.

(** X11.  A row is written exactly when it is a row of the second table with a
    CVE identifier that no row of the first table with a CVE identifier
    equals on the five identity columns. *)
Theorem unique_values_elem_of (older_data newer_data : DataFrame) (r : row) :
  r ∈ unique_values older_data newer_data ↔
  r ∈ newer_data ∧ cve_id r ≠ None ∧
  ∀ r', r' ∈ older_data → cve_id r' ≠ None → identity r' ≠ identity r.
Proof.
  rewrite unique_values_filter. unfold dropna_cve.
  rewrite list_elem_of_filter, list_elem_of_filter, Forall_forall. split.
  - intros (Hall & Hcve & Hin). repeat split; [done..|].
    intros r' Hr' Hcve'. apply Hall. by apply list_elem_of_filter.
  - intros (Hin & Hcve & Hall). repeat split; [|done..].
    intros r' [Hcve' Hr']%list_elem_of_filter. by apply Hall.
Qed.

(** X12.  The rows written are rows of the second table, in its order and as
    often as they are there: nothing is invented, reordered or merged. *)
Theorem unique_values_sublist (older_data newer_data : DataFrame) :
  unique_values older_data newer_data `sublist_of` newer_data.
Proof.
  rewrite unique_values_filter. unfold dropna_cve.
  etrans; apply sublist_filter.
Qed.

(** X13.  Each row of the second table is judged by itself: the result for two
    tables put one after the other is the two results one after the
    other. *)
Theorem unique_values_app (older_data newer1 newer2 : DataFrame) :
  unique_values older_data (newer1 ++ newer2) =
  unique_values older_data newer1 ++ unique_values older_data newer2.
Proof.
  rewrite !unique_values_filter. unfold dropna_cve. by rewrite !filter_app.
Qed.

(** X14.  Of the first table only the identities of its rows with a CVE
    identifier count: their order, their number of copies and their other
    columns do not change the result. *)
Theorem unique_values_older_identities (older1 older2 newer_data : DataFrame) :
  (∀ k, k ∈ identity <$> dropna_cve older1 ↔ k ∈ identity <$> dropna_cve older2) →
  unique_values older1 newer_data = unique_values older2 newer_data.
Proof.
  intros Hsame. rewrite !unique_values_filter. apply list_filter_iff. intros r.
  assert (∀ t : DataFrame,
            Forall (λ r', identity r' ≠ identity r) t ↔ identity r ∉ identity <$> t) as Hnot.
  { intros t. split.
    - intros Hall (r' & Heq & Hr')%list_elem_of_fmap.
      rewrite Forall_forall in Hall. by apply (Hall r').
    - intros Hnot. apply Forall_forall. intros r' Hr' Heq. apply Hnot.
      apply list_elem_of_fmap. by exists r'. }
  by rewrite !Hnot, Hsame.
Qed.

(** With nothing in the first table, every row of the second table that
    has a CVE identifier is written. *)
Lemma unique_values_nil (newer_data : DataFrame) :
  unique_values [] newer_data = dropna_cve newer_data.
Proof.
  rewrite unique_values_filter. unfold dropna_cve at 1. simpl.
  induction (dropna_cve newer_data) as [|r t IH]; [done|].
  by rewrite filter_cons_True, IH by constructor.
Qed.

End Tables.

(** ** The comparison, as a step of the program *)

Section Compare.
Context `{Platform}.

Lemma compare_excel_files_cases file1 file2 w :
  (∃ msg, compare_excel_files file1 file2 w = (Raise (Exception msg), w)) ∨
  (∃ content,
     compare_excel_files file1 file2 w =
       (Return output_file_name,
        printed ["The data has been successfully saved to " +:+ output_file_name +:+ "."]
          (written output_file_name content w))).
Proof.
  unfold compare_excel_files, output_file_name, bind, read_file, write_xlsx, print, ret.
  destruct (files w !! file1) as [c1|]; [|by eauto].
  destruct (read_excel c1) as [t1|msg]; simpl; [|by eauto].
  destruct (files w !! file2) as [c2|]; [|by eauto].
  destruct (read_excel c2) as [t2|msg]; simpl; [|by eauto].
  destruct (write_error _) as [msg|]; [by eauto|]. right. eauto.
Qed.

(** X15.  When the comparison fails (a file is missing or unreadable, or the
    output cannot be written), it fails with an [Exception] and leaves the
    files, the console and the SDK as they were. *)
Theorem compare_excel_files_fails_clean file1 file2 w e w' :
  compare_excel_files file1 file2 w = (Raise e, w') →
  w' = w ∧ ∃ msg, e = Exception msg.
Proof.
  destruct (compare_excel_files_cases file1 file2 w) as [[msg Hc]|[content Hc]];
    rewrite Hc; [|done].
  intros [= <- <-]. eauto.
Qed.

(** X16.  When the comparison returns, it returns the name
    [<date>_ImageVulnerabilityAssessment.xlsx], that file exists, every
    other file (the two inputs among them, unless one has that very name)
    is as it was, no SDK call was made and one line was printed. *)
Theorem compare_excel_files_writes_one_file file1 file2 w out w' :
  compare_excel_files file1 file2 w = (Return out, w') →
  out = output_file_name ∧
  is_Some (files w' !! out) ∧
  (∀ name, name ≠ out → files w' !! name = files w !! name) ∧
  calls w' = calls w ∧
  console w' = console w ++ ["The data has been successfully saved to " +:+ out +:+ "."].
Proof.
  destruct (compare_excel_files_cases file1 file2 w) as [[msg Hc]|[content Hc]];
    rewrite Hc; [done|].
  intros [= <- <-]. simpl. split; [done|]. split; [|split; [|done]].
  - rewrite lookup_insert_eq. by eexists.
  - intros name Hne. by apply lookup_insert_ne.
Qed.

End Compare.

(** ** The program, as a whole *)

Section Program.
Context `{Platform}.

Lemma main_cases w :
  let filter := "scheduled_report_id:'" +:+ fmt CROWDSTRIKE_REPORT_ID +:+ "'" in
  let query := reports_executions_query (sdk w) filter in
  let w1 := called (reports_executions_query_call filter) query.2
              (printed ["Searching for executions of " +:+ fmt CROWDSTRIKE_REPORT_ID] w) in
  let id_list := resources query.1 in
  let get := report_executions_get (sdk w1) id_list in
  let w2 := printed ["This execution has run " +:+
                     Str.of_nat (List.length (resources get.1)) +:+ " times."]
              (called (report_executions_get_call id_list) get.2
                (printed ["Found " +:+ Str.of_nat (List.length id_list) +:+
                          " executions of this report available."] w1)) in
  status_code query.1 = 200%Z → status_code get.1 = 200%Z →
  main w =
    match process_executions (resources get.1) w2 with
    | (Return [file1; file2], w3) =>
        match compare_excel_files file1 file2 w3 with
        | (Return _, w4) => (Return tt, w4)
        | (Raise e, w4) => (Raise e, w4)
        end
    | (Return _, w3) => (Return tt, printed ["Not enough files saved for comparison."] w3)
    | (Raise e, w3) => (Raise e, w3)
    end.
Proof.
  intros filter query w1 id_list get w2 Hq Hg.
  unfold main, retrieve_report_executions, get_report_execution_runs,
    bind, print, call_sdk, raise, ret. simpl.
  fold filter. fold query. subst w2 get w1 id_list.
  destruct query as [lookup s] eqn:Hquery. simpl in *.
  apply Z.eqb_eq in Hq. rewrite Hq. simpl.
  destruct (report_executions_get s (resources lookup)) as [lookup2 s2] eqn:Hget.
  simpl in *. apply Z.eqb_eq in Hg. rewrite Hg. simpl.
  destruct (process_executions _ _) as [[saved|e] w3]; [|done].
  destruct saved as [|f1 [|f2 [|f3 fs]]]; try done.
Qed.

Lemma main_non_200 w :
  let filter := "scheduled_report_id:'" +:+ fmt CROWDSTRIKE_REPORT_ID +:+ "'" in
  let query := reports_executions_query (sdk w) filter in
  let w1 := called (reports_executions_query_call filter) query.2
              (printed ["Searching for executions of " +:+ fmt CROWDSTRIKE_REPORT_ID] w) in
  let id_list := resources query.1 in
  let get := report_executions_get (sdk w1) id_list in
  (status_code query.1 ≠ 200%Z → ∃ msg w', main w = (Raise (SystemExit msg), w') ∧
                                            files w' = files w) ∧
  (status_code query.1 = 200%Z → status_code get.1 ≠ 200%Z →
     ∃ msg w', main w = (Raise (SystemExit msg), w') ∧ files w' = files w).
Proof.
  intros filter query w1 id_list get. split.
  - intros Hcode.
    unfold main, retrieve_report_executions, bind, print, call_sdk, raise. simpl.
    fold filter. fold query. destruct query as [lookup s] eqn:Hq. simpl in *.
    apply Z.eqb_neq in Hcode. rewrite Hcode. simpl. by eexists _, _.
  - intros Hcode Hcode2.
    unfold main, retrieve_report_executions, get_report_execution_runs,
      bind, print, call_sdk, raise, ret. simpl.
    fold filter. fold query. subst get w1 id_list.
    destruct query as [lookup s] eqn:Hq. simpl in *.
    apply Z.eqb_eq in Hcode. rewrite Hcode. simpl.
    destruct (report_executions_get s (resources lookup)) as [lookup2 s2] eqn:Hg.
    simpl in *. apply Z.eqb_neq in Hcode2. rewrite Hcode2. simpl. by eexists _, _.
Qed.

(** X17.  [SystemExit] leaves the program only for a status code other than 200
    from one of the two lookups, and then no file has been written: every
    other failure is a [TypeError], a [ValueError] or an [Exception]. *)
Theorem main_system_exit_inv w msg w' :
  main w = (Raise (SystemExit msg), w') →
  let fql := "scheduled_report_id:'" +:+ fmt CROWDSTRIKE_REPORT_ID +:+ "'" in
  let query := reports_executions_query (sdk w) fql in
  let get := report_executions_get query.2 (resources query.1) in
  (status_code query.1 ≠ 200%Z ∨ status_code get.1 ≠ 200%Z) ∧ files w' = files w.
Proof.
  intros Hmain fql query get.
  pose proof (main_non_200 w) as [Hq Hg]. simpl in Hq, Hg.
  fold fql in Hq, Hg. fold query in Hq, Hg. fold get in Hg.
  destruct (decide (status_code query.1 = 200%Z)) as [Hq200|Hq200].
  2:{ destruct (Hq Hq200) as (m & w1 & Hm & Hfiles). rewrite Hm in Hmain.
      simplify_eq. by split; [left|]. }
  destruct (decide (status_code get.1 = 200%Z)) as [Hg200|Hg200].
  2:{ destruct (Hg Hq200 Hg200) as (m & w1 & Hm & Hfiles). rewrite Hm in Hmain.
      simplify_eq. by split; [right|]. }
  exfalso. rewrite main_cases in Hmain by done.
  destruct (process_executions _ _) as [[saved|e] w3] eqn:Hp.
  - destruct saved as [|f1 [|f2 [|f3 fs]]]; try done.
    destruct (compare_excel_files_cases f1 f2 w3) as [[m Hc]|[content Hc]];
      rewrite Hc in Hmain; done.
  - simplify_eq. by apply process_executions_raise_cases in Hp as [(? & _)|(? & _)].
Qed.

(** X18.  A run that ends normally made the two lookups and then one download
    for each selected record whose status is "DONE" and no other SDK call,
    so at most four calls; and it wrote the comparison file and said so, or
    said that there were not enough files, as its last line. *)
Theorem main_returns_inv w w' :
  main w = (Return tt, w') →
  let fql := "scheduled_report_id:'" +:+ fmt CROWDSTRIKE_REPORT_ID +:+ "'" in
  let query := reports_executions_query (sdk w) fql in
  let get := report_executions_get query.2 (resources query.1) in
  status_code query.1 = 200%Z ∧ status_code get.1 = 200%Z ∧
  (∃ sorted_runs,
     select_runs (resources get.1) = Return sorted_runs ∧
     calls w' = calls w ++
       [reports_executions_query_call fql;
        report_executions_get_call (resources query.1)] ++
       ((λ r, get_download_call (id r)) <$> filter is_done sorted_runs)) ∧
  (List.length (calls w') ≤ List.length (calls w) + 4)%nat ∧
  (last (console w') = Some "Not enough files saved for comparison." ∨
   (is_Some (files w' !! output_file_name) ∧
    last (console w') =
      Some ("The data has been successfully saved to " +:+ output_file_name +:+ "."))).
Proof.
  intros Hmain fql query get.
  pose proof (main_non_200 w) as [Hq Hg]. simpl in Hq, Hg.
  fold fql in Hq, Hg. fold query in Hq, Hg. fold get in Hg.
  destruct (decide (status_code query.1 = 200%Z)) as [Hq200|Hq200].
  2:{ destruct (Hq Hq200) as (m & w1 & Hm & _). by rewrite Hm in Hmain. }
  destruct (decide (status_code get.1 = 200%Z)) as [Hg200|Hg200].
  2:{ destruct (Hg Hq200 Hg200) as (m & w1 & Hm & _). by rewrite Hm in Hmain. }
  split; [done|]. split; [done|].
  rewrite main_cases in Hmain by done. fold fql in Hmain. fold query in Hmain.
  fold get in Hmain.
  destruct (process_executions _ _) as [[saved|e] w3] eqn:Hp; [|done].
  destruct (process_executions_inv _ _ _ _ Hp) as (sorted_runs & Hsel & Hloop).
  apply process_loop_effects in Hloop as (Hcalls & _). simpl in Hcalls.
  assert (List.length (filter is_done sorted_runs) ≤ 2)%nat as Hlen.
  { apply select_runs_length in Hsel.
    pose proof (length_filter (λ r, is_done r) sorted_runs) as Hle. lia. }
  assert (calls w3 = calls w ++
            [reports_executions_query_call fql;
             report_executions_get_call (resources query.1)] ++
            ((λ r, get_download_call (id r)) <$> filter is_done sorted_runs)) as Hcalls3.
  { rewrite Hcalls. by rewrite <- !app_assoc. }
  assert (List.length (calls w3) ≤ List.length (calls w) + 4)%nat as Hlen3.
  { rewrite Hcalls3, !length_app, length_fmap. simpl. lia. }
  destruct saved as [|f1 [|f2 [|f3 fs]]].
  1,2,4: injection Hmain as <-; (split; [by exists sorted_runs|]); (split; [done|]);
         left; simpl; by rewrite last_snoc.
  destruct (compare_excel_files_cases f1 f2 w3) as [[m Hc]|[content Hc]];
    rewrite Hc in Hmain; [done|].
  injection Hmain as <-. split; [by exists sorted_runs|]. split; [done|]. right. simpl.
  split; [rewrite lookup_insert_eq; by eexists|by rewrite last_snoc].
Qed.

End Program.

(** ** The timestamp format, from the end *)

Section Regex.

Lemma str_app_assoc a b c : (a +:+ b) +:+ c = a +:+ (b +:+ c).
Proof.
  induction a as [|x a IH]; [done|].
  change (String x ((a +:+ b) +:+ c) = String x (a +:+ b +:+ c)). by f_equal.
Qed.

Lemma consumed_refl s : consumed s s.
Proof. by exists "". Qed.

Lemma consumed_cons c s rest : consumed s rest → consumed (String c s) rest.
Proof. intros [pre ->]. by exists (String c pre). Qed.

Lemma consumed_trans s1 s2 s3 : consumed s1 s2 → consumed s2 s3 → consumed s1 s3.
Proof. intros [p1 ->] [p2 ->]. exists (p1 +:+ p2). symmetry. apply str_app_assoc. Qed.

Lemma digit_then_one_lift s1 s2 rest :
  consumed s1 s2 → digit_then_one s2 rest → digit_then_one s1 rest.
Proof.
  intros [p1 ->] (p2 & c & z & -> & Hc). exists (p1 +:+ p2), c, z.
  split; [|done]. symmetry. apply str_app_assoc.
Qed.

Lemma seq_inv {A B} (p : Strptime.parser A) (k : A → Strptime.parser B) s b r :
  In (b, r) (Strptime.seq p k s) → ∃ a s', In (a, s') (p s) ∧ In (b, r) (k a s').
Proof.
  unfold Strptime.seq. intros ([a s'] & Hp & Hk)%in_flat_map. eauto.
Qed.

Lemma alt_inv {A} (p q : Strptime.parser A) s x :
  In x (Strptime.alt p q s) → In x (p s) ∨ In x (q s).
Proof. unfold Strptime.alt. apply in_app_or. Qed.

Lemma pure_inv {A} (a b : A) s r : In (b, r) (Strptime.pure a s) → b = a ∧ r = s.
Proof. unfold Strptime.pure. intros [[= <- <-]|[]]. done. Qed.

Lemma digit_inv lo hi s n s' :
  (hi ≤ 9)%nat → In (n, s') (Strptime.digit lo hi s) →
  ∃ c, s = String c s' ∧ is_digit c = true.
Proof.
  intros Hhi. destruct s as [|c s]; [done|].
  change (In (n, s') (if ((48 + lo <=? nat_of_ascii c) && (nat_of_ascii c <=? 48 + hi))%nat
                      then [((nat_of_ascii c - 48)%nat, s)] else []) → 
          ∃ c0, String c s = String c0 s' ∧ is_digit c0 = true).
  destruct (_ && _) eqn:Hrange; [|done].
  intros [[= <- <-]|[]]. exists c. split; [done|].
  apply andb_prop in Hrange as [Hlo%Nat.leb_le Hle%Nat.leb_le].
  unfold is_digit. apply andb_true_intro. split; apply Nat.leb_le; lia.
Qed.

Lemma digit_consumed lo hi s n s' :
  In (n, s') (Strptime.digit lo hi s) → consumed s s'.
Proof.
  destruct s as [|c s]; [done|].
  change (In (n, s') (if ((48 + lo <=? nat_of_ascii c) && (nat_of_ascii c <=? 48 + hi))%nat
                      then [((nat_of_ascii c - 48)%nat, s)] else []) →
          consumed (String c s) s').
  destruct (_ && _); [|done].
  intros [[= <- <-]|[]]. apply consumed_cons, consumed_refl.
Qed.

Lemma lit_inv c s u s' : In (u, s') (Strptime.lit c s) → ∃ c', s = String c' s'.
Proof.
  destruct s as [|c' s]; simpl; [done|].
  destruct (Ascii.eqb _ _); simpl; [|done]. intros [[= <- <-]|[]]. eauto.
Qed.

Lemma lit_consumed c s u s' : In (u, s') (Strptime.lit c s) → consumed s s'.
Proof. intros [c' ->]%lit_inv. apply consumed_cons, consumed_refl. Qed.

Lemma two_consumed alo ahi blo bhi s n s' :
  In (n, s') (Strptime.two alo ahi blo bhi s) → consumed s s'.
Proof.
  unfold Strptime.two.
  intros (a & s1 & Ha & (b & s2 & Hb & [_ ->]%pure_inv)%seq_inv)%seq_inv.
  eapply consumed_trans; by eapply digit_consumed.
Qed.

Ltac consume :=
  repeat match goal with
  | H : In _ (Strptime.alt _ _ _) |- _ => apply alt_inv in H as [H|H]
  | H : In _ (Strptime.seq _ _ _) |- _ =>
      let Hk := fresh "Hk" in apply seq_inv in H as (? & ? & H & Hk)
  | H : In _ (Strptime.pure _ _) |- _ => apply pure_inv in H as [_ ->]
  end;
  repeat match goal with
  | H : In _ (Strptime.two _ _ _ _ ?s) |- consumed ?s _ =>
      eapply consumed_trans; [exact (two_consumed _ _ _ _ _ _ _ H)|]; clear H
  | H : In _ (Strptime.digit _ _ ?s) |- consumed ?s _ =>
      eapply consumed_trans; [exact (digit_consumed _ _ _ _ _ H)|]; clear H
  | H : In _ (Strptime.lit _ ?s) |- consumed ?s _ =>
      eapply consumed_trans; [exact (lit_consumed _ _ _ _ H)|]; clear H
  end;
  try apply consumed_refl.

Lemma dir_Y_consumed s n s' : In (n, s') (Strptime.dir_Y s) → consumed s s'.
Proof. unfold Strptime.dir_Y. intros Hin. consume. Qed.

Lemma dir_m_consumed s n s' : In (n, s') (Strptime.dir_m s) → consumed s s'.
Proof. unfold Strptime.dir_m. intros Hin. consume. Qed.

Lemma dir_d_consumed s n s' : In (n, s') (Strptime.dir_d s) → consumed s s'.
Proof. unfold Strptime.dir_d. intros Hin. consume. Qed.

Lemma dir_H_consumed s n s' : In (n, s') (Strptime.dir_H s) → consumed s s'.
Proof. unfold Strptime.dir_H. intros Hin. consume. Qed.

Lemma dir_M_consumed s n s' : In (n, s') (Strptime.dir_M s) → consumed s s'.
Proof. unfold Strptime.dir_M. intros Hin. consume. Qed.

Lemma dir_S_consumed s n s' : In (n, s') (Strptime.dir_S s) → consumed s s'.
Proof. unfold Strptime.dir_S. intros Hin. consume. Qed.

Lemma digits_upto_inv n s k s' :
  In (k, s') (Strptime.digits_upto n s) →
  ∃ pre c, s = pre +:+ String c s' ∧ is_digit c = true.
Proof.
  assert (∀ s k s', In (k, s') (Strptime.seq (Strptime.digit 0 9) (λ _, Strptime.pure 1%nat) s) →
            ∃ pre c, s = pre +:+ String c s' ∧ is_digit c = true) as Hone.
  { clear. intros s k s' (a & s1 & Ha & [_ ->]%pure_inv)%seq_inv.
    apply digit_inv in Ha as (c & -> & Hc); [|lia]. by exists "", c. }
  revert s k s'. induction n as [|n IH]; intros s k s'; simpl; [apply Hone|].
  intros [Hin|Hin]%alt_inv; [|by eapply Hone].
  apply seq_inv in Hin as (a & s1 & Ha & (j & s2 & Hj & [_ ->]%pure_inv)%seq_inv).
  apply digit_inv in Ha as (c & -> & _); [|lia].
  apply IH in Hj as (pre & c' & -> & Hc'). by exists (String c pre), c'.
Qed.

(** Whatever the format matches ends with a digit of the fraction and the
    character matched by [Z]. *)
Lemma format_regex_inv s d rest :
  In (d, rest) (Strptime.format_regex s) → digit_then_one s rest.
Proof.
  unfold Strptime.format_regex. intros Hin.
  repeat match goal with
  | H : In _ (Strptime.seq _ _ _) |- _ =>
      let Hk := fresh "Hk" in apply seq_inv in H as (? & ? & H & Hk)
  end.
  repeat match goal with
  | H : In _ (Strptime.dir_Y ?s) |- digit_then_one ?s _ =>
      eapply digit_then_one_lift; [exact (dir_Y_consumed _ _ _ H)|]; clear H
  | H : In _ (Strptime.dir_m ?s) |- digit_then_one ?s _ =>
      eapply digit_then_one_lift; [exact (dir_m_consumed _ _ _ H)|]; clear H
  | H : In _ (Strptime.dir_d ?s) |- digit_then_one ?s _ =>
      eapply digit_then_one_lift; [exact (dir_d_consumed _ _ _ H)|]; clear H
  | H : In _ (Strptime.dir_H ?s) |- digit_then_one ?s _ =>
      eapply digit_then_one_lift; [exact (dir_H_consumed _ _ _ H)|]; clear H
  | H : In _ (Strptime.dir_M ?s) |- digit_then_one ?s _ =>
      eapply digit_then_one_lift; [exact (dir_M_consumed _ _ _ H)|]; clear H
  | H : In _ (Strptime.dir_S ?s) |- digit_then_one ?s _ =>
      eapply digit_then_one_lift; [exact (dir_S_consumed _ _ _ H)|]; clear H
  | H : In _ (Strptime.lit _ ?s) |- digit_then_one ?s _ =>
      eapply digit_then_one_lift; [exact (lit_consumed _ _ _ _ H)|]; clear H
  end.
  match goal with
  | Hf : In _ (Strptime.dir_f _), Hz : In _ (Strptime.lit _ _),
    Hp : In _ (Strptime.pure _ _) |- _ =>
      apply digits_upto_inv in Hf as (pre & c & -> & Hc);
      apply lit_inv in Hz as [z ->];
      apply pure_inv in Hp as [_ ->];
      by exists pre, c, z
  end.
Qed.

Lemma last_char_app_one pre c : last_char (pre +:+ String c "") = Some c.
Proof.
  induction pre as [|x pre IH]; [done|].
  change (last_char (String x (pre +:+ String c "")) = Some c).
  destruct pre as [|y pre]; [done|]. exact IH.
Qed.

Lemma app_one_inj s z pre c z' :
  s +:+ String z "" = pre +:+ String c (String z' "") → s = pre +:+ String c "".
Proof.
  revert pre. induction s as [|x s IH]; intros pre.
  - destruct pre as [|y [|y' pre]]; intros Heq; inversion Heq.
  - destruct pre as [|y pre].
    + change (String x (s +:+ String z "") = String c (String z' "") →
              String x s = String c "").
      intros [= -> Hs]. destruct s as [|? [|? ?]]; inversion Hs. done.
    + change (String x (s +:+ String z "") = String y (pre +:+ String c (String z' "")) →
              String x s = String y (pre +:+ String c "")).
      intros [= -> Hs]. f_equal. by apply IH.
Qed.

(** What [strptime] accepts ends with a digit and one more character. *)
Lemma strptime_returns_inv s d :
  Strptime.strptime s = Return d → digit_then_one s "".
Proof.
  unfold Strptime.strptime.
  destruct (Strptime.format_regex s) as [|[d0 rest] l] eqn:Hm; [done|].
  destruct (String.eqb_spec rest ""); [subst|done]. intros _.
  apply (format_regex_inv s d0). rewrite Hm. by left.
Qed.

End Regex.

(** X8.  The character before the added [Z] has to be a digit: a [created_on]
    whose 26th character, or last character if it is shorter, is not a
    digit makes the date suffix raise [ValueError].  So does the empty
    string; the placeholder "Unknown Date" is the one exception. *)
Theorem date_suffix_needs_final_digit r s :
  created_on r = Some s →
  s ≠ "Unknown Date" →
  (∀ c, last_char (Str.take 26 s) = Some c → is_digit c = false) →
  date_suffix r = Raise ValueError.
Proof.
  intros Hs Hne Hlast. unfold date_suffix. rewrite Hs.
  change (default "Unknown Date" (Some s)) with s. cbv zeta.
  apply String.eqb_neq in Hne. rewrite Hne. cbn [negb].
  destruct (Strptime.strptime _) as [d|e] eqn:Hp; cbn [obind].
  - apply strptime_returns_inv in Hp as (pre & c & z & Heq & Hc).
    apply app_one_inj in Heq. rewrite Heq, last_char_app_one in Hlast.
    rewrite (Hlast c) in Hc; done.
  - by apply strptime_raises in Hp as ->.
Qed.

(** X9.  Everything after the 26th character of [created_on] is ignored: two
    timestamps with the same first 26 characters get the same date suffix,
    or both fail. *)
Theorem date_suffix_ignores_tail r1 r2 s t1 t2 :
  String.length s = 26%nat →
  created_on r1 = Some (s +:+ t1) →
  created_on r2 = Some (s +:+ t2) →
  date_suffix r1 = date_suffix r2.
Proof.
  intros Hlen H1 H2.
  assert (∀ n a b, String.length a = n → Str.take n (a +:+ b) = a) as Htake.
  { clear. induction n as [|n IH]; intros [|x a] b Ha; try done.
    change (String x (Str.take n (a +:+ b)) = String x a). f_equal. apply IH.
    by injection Ha. }
  assert (∀ t, String.eqb (s +:+ t) "Unknown Date" = false) as Hne.
  { intros t. apply String.eqb_neq. intros Heq.
    assert (Str.take 26 (s +:+ t) = s) as Hs by by apply Htake.
    rewrite Heq in Hs. subst s. done. }
  unfold date_suffix. rewrite H1, H2.
  change (default "Unknown Date" (Some (s +:+ t1))) with (s +:+ t1).
  change (default "Unknown Date" (Some (s +:+ t2))) with (s +:+ t2).
  cbv zeta. by rewrite !Hne, !Htake.
Qed.

(** ** The selection does not depend on the order of the input *)

Lemma str_lt_connex a b : Str.lt a b = false → Str.lt b a = false → a = b.
Proof.
  revert b. induction a as [|x a IH]; intros [|y b]; simpl; try done.
  destruct (Nat.ltb_spec (nat_of_ascii x) (nat_of_ascii y)),
           (Nat.ltb_spec (nat_of_ascii y) (nat_of_ascii x)); try done; try lia.
  intros Hab Hba. assert (nat_of_ascii x = nat_of_ascii y) as Hxy by lia.
  apply (f_equal ascii_of_nat) in Hxy. rewrite !ascii_nat_embedding in Hxy.
  subst. f_equal. by apply IH.
Qed.

Lemma sorted_desc_unique {A} (key : A → option string) (s1 s2 : list A) :
  StronglySorted (Sort.ge key) s1 → StronglySorted (Sort.ge key) s2 →
  s1 ≡ₚ s2 → NoDup (key <$> s1) → s1 = s2.
Proof.
  intros Hs1. revert s2. induction Hs1 as [|x s1 Hs1 IH Hx]; intros s2 Hs2 Hperm Hdup.
  { by apply Permutation_nil_l in Hperm. }
  destruct Hs2 as [|y s2 Hs2 Hy].
  { by apply Permutation_nil_r in Hperm. }
  rewrite fmap_cons in Hdup. apply NoDup_cons in Hdup as [Hfresh Hdup].
  assert (x = y) as <-.
  { assert (x ∈ y :: s2) as Hxin by (rewrite <- Hperm; left).
    assert (y ∈ x :: s1) as Hyin by (rewrite Hperm; left).
    apply elem_of_cons in Hxin as [|Hxin]; [done|].
    apply elem_of_cons in Hyin as [|Hyin]; [done|].
    rewrite Forall_forall in Hx, Hy.
    pose proof (Hx y Hyin) as Hxy. pose proof (Hy x Hxin) as Hyx.
    unfold Sort.ge in Hxy, Hyx.
    destruct (key x) as [a|] eqn:Ha, (key y) as [b|] eqn:Hb; try done.
    assert (a = b) as -> by by apply str_lt_connex.
    exfalso. apply Hfresh. apply list_elem_of_fmap. exists y. by rewrite Hb. }
  f_equal. apply IH; [done| |done]. by apply Permutation_cons_inv in Hperm.
Qed.

(** X10.  When all records carry [created_on] and no two share it, the selection
    depends on the records alone, not on the order in which the platform
    lists them. *)
Theorem select_runs_order_independent (run_list1 run_list2 : list status_record) :
  run_list1 ≡ₚ run_list2 →
  Forall (Sort.has_key created_on) run_list1 →
  NoDup (created_on <$> run_list1) →
  select_runs run_list1 = select_runs run_list2.
Proof.
  intros Hperm Hkeys Hdup.
  destruct (SortFacts.sorted_desc_spec created_on run_list1 Hkeys)
    as (s1 & Hs1 & Hp1 & Hsorted1 & _).
  destruct (SortFacts.sorted_desc_spec created_on run_list2)
    as (s2 & Hs2 & Hp2 & Hsorted2 & _); [by rewrite <- Hperm|].
  unfold select_runs. rewrite Hs1, Hs2. simpl. do 2 f_equal.
  apply (sorted_desc_unique created_on); [done|done| |].
  - by rewrite Hp1, Hp2.
  - by rewrite Hp1.
Qed.

(** X6.  [process_executions] never reports more than two saved files. *)
Theorem saved_files_at_most_two `{Platform} run_list w saved_files w' :
  process_executions run_list w = (Return saved_files, w') →
  (List.length saved_files ≤ 2)%nat.
Proof.
  intros (sorted_runs & Hsel & Hloop)%process_executions_inv.
  apply select_runs_length in Hsel.
  apply process_loop_effects in Hloop as (_ & _ & new & -> & Hsub & _).
  apply sublist_length in Hsub. rewrite length_fmap in Hsub.
  pose proof (length_filter (λ r, is_done r) sorted_runs). simpl. lia.
Qed.

(** ** The further properties, on the examples *)

Section MoreRuns.
Import Examples MoreExamples.

Lemma select_runs_raises_iff_witness :
  select_runs [undated_1; run_A] = Raise TypeError.
Proof.
  apply select_runs_raises_iff. split; [reflexivity|]. split; [simpl; lia|].
  left. reflexivity.
Defined.

Lemma process_executions_raises_inv_witness :
  (TypeError = TypeError ∧ Scripted.start two_done = Scripted.start two_done ∧
   (2 ≤ List.length [undated_1; run_A])%nat ∧
   Exists (λ r, created_on r = None) [undated_1; run_A]) ∨
  (TypeError = ValueError ∧ ∃ sorted_runs r,
     select_runs [undated_1; run_A] = Return sorted_runs ∧ r ∈ sorted_runs ∧
     conforming r = false).
Proof.
  apply (@process_executions_raises_inv (Scripted.platform two_done)
           [undated_1; run_A] (Scripted.start two_done)).
  reflexivity.
Defined.

Lemma process_executions_downloads_finished_runs_witness :
  ∃ sorted_runs,
    select_runs [run_B; run_A] = Return sorted_runs ∧
    calls stage3.2 = calls (Scripted.start two_done) ++
      ((λ r, get_download_call (id r)) <$> filter is_done sorted_runs).
Proof.
  apply (@process_executions_downloads_finished_runs (Scripted.platform two_done) [run_B; run_A]
           (Scripted.start two_done) ["A_20240102.xlsx"; "B_20240101.xlsx"] stage3.2).
  vm_compute. reflexivity.
Defined.

Lemma process_executions_saved_files_exist_witness :
  ∃ sorted_runs,
    select_runs [run_B; run_A] = Return sorted_runs ∧
    ["A_20240102.xlsx"; "B_20240101.xlsx"]
      `sublist_of` (excel_filename <$> filter is_done sorted_runs) ∧
    ∀ name, name ∈ ["A_20240102.xlsx"; "B_20240101.xlsx"] → is_Some (files stage3.2 !! name).
Proof.
  apply (@process_executions_saved_files_exist (Scripted.platform two_done) [run_B; run_A]
           (Scripted.start two_done) ["A_20240102.xlsx"; "B_20240101.xlsx"] stage3.2).
  vm_compute. reflexivity.
Defined.

Lemma process_executions_keeps_other_files_witness :
  (∀ name, name ∉ ["A_20240102.xlsx"; "B_20240101.xlsx"] →
           files stage3.2 !! name = files (Scripted.start two_done) !! name) ∧
  (∀ name, is_Some (files (Scripted.start two_done) !! name) →
           is_Some (files stage3.2 !! name)) ∧
  console (Scripted.start two_done) `prefix_of` console stage3.2.
Proof.
  apply (@process_executions_keeps_other_files (Scripted.platform two_done) [run_B; run_A]
           (Scripted.start two_done) ["A_20240102.xlsx"; "B_20240101.xlsx"] stage3.2).
  vm_compute. reflexivity.
Defined.

Lemma saved_files_at_most_two_witness :
  (List.length ["A_20240102.xlsx"; "B_20240101.xlsx"] ≤ 2)%nat.
Proof.
  apply (@saved_files_at_most_two (Scripted.platform two_done) [run_B; run_A]
           (Scripted.start two_done) ["A_20240102.xlsx"; "B_20240101.xlsx"] stage3.2).
  vm_compute. reflexivity.
Defined.

Lemma finished_report_is_saved_witness :
  @process_one (Scripted.platform two_done) run_A [] (Scripted.start two_done) =
    (Return ["A_20240102.xlsx"],
     printed ["A successfully saved to A_20240102.xlsx"]
       (written "A_20240102.xlsx" sheet_A
         (called (get_download_call "A") (tt : @sdk_state (Scripted.platform two_done))
           (printed ["Retrieving report detail for execution ID: A"]
              (Scripted.start two_done))))).
Proof.
  etrans.
  - apply (@finished_report_is_saved (Scripted.platform two_done) run_A [] "20240102" csv_A tt
             (string_of_list_byte csv_A)
             (Scripted.split "," <$> Scripted.lines (string_of_list_byte csv_A))).
    + reflexivity.
    + reflexivity.
    + reflexivity.
    + discriminate.
    + reflexivity.
    + reflexivity.
    + apply Forall_forall. reflexivity.
    + reflexivity.
  - vm_compute. reflexivity.
Defined.

Lemma date_suffix_needs_final_digit_witness :
  date_suffix run_millis = Raise ValueError.
Proof.
  apply (date_suffix_needs_final_digit run_millis "2024-01-02T03:04:05.123Z").
  - reflexivity.
  - discriminate.
  - intros c. vm_compute. intros [= <-]. reflexivity.
Defined.

Lemma date_suffix_ignores_tail_witness :
  date_suffix run_A = date_suffix run_A_micro.
Proof.
  apply (date_suffix_ignores_tail run_A run_A_micro "2024-01-02T00:00:00.000000" "000Z" "");
    reflexivity.
Defined.

Lemma select_runs_order_independent_witness :
  select_runs [run_B; run_A] = select_runs [run_A; run_B].
Proof.
  apply select_runs_order_independent.
  - apply perm_swap.
  - repeat constructor; by eexists.
  - rewrite !fmap_cons. apply NoDup_cons. split; [|apply NoDup_singleton].
    apply not_elem_of_cons. split; [discriminate|apply not_elem_of_nil].
Defined.

Lemma unique_values_elem_of_witness :
  finding_row (Some "CVE-3") "1.0" ∈ unique_values table_A table_B.
Proof.
  apply unique_values_elem_of. split; [|split].
  - right. left.
  - discriminate.
  - intros r' Hr' Hcve Heq.
    repeat (apply elem_of_cons in Hr' as [->|Hr']; [by vm_compute in Heq|]).
    by apply not_elem_of_nil in Hr'.
Defined.

Lemma unique_values_older_identities_witness :
  unique_values table_A table_B = unique_values (table_A ++ table_A) table_B.
Proof.
  apply unique_values_older_identities.
  intros k. unfold dropna_cve. rewrite filter_app, fmap_app, elem_of_app. tauto.
Defined.

Lemma compare_excel_files_fails_clean_witness :
  two_files = two_files ∧
  ∃ msg, Exception "No such file or directory: C_20240101.xlsx" = Exception msg.
Proof.
  apply (@compare_excel_files_fails_clean (Scripted.platform two_done)
           "A_20240102.xlsx" "C_20240101.xlsx" two_files).
  reflexivity.
Defined.

Lemma compare_excel_files_writes_one_file_witness :
  ∃ w', @compare_excel_files (Scripted.platform two_done)
          "A_20240102.xlsx" "B_20240101.xlsx" two_files
          = (Return "2024_01_03_ImageVulnerabilityAssessment.xlsx", w') ∧
        files w' !! "A_20240102.xlsx" = Some sheet_A ∧
        files w' !! "B_20240101.xlsx" = Some sheet_B.
Proof.
  destruct (@compare_excel_files (Scripted.platform two_done)
              "A_20240102.xlsx" "B_20240101.xlsx" two_files) as [o w'] eqn:Hrun.
  assert (o = Return "2024_01_03_ImageVulnerabilityAssessment.xlsx") as ->
    by (vm_compute in Hrun; congruence).
  exists w'. split; [done|].
  destruct (@compare_excel_files_writes_one_file (Scripted.platform two_done)
              _ _ _ _ _ Hrun) as (_ & _ & Hother & _).
  rewrite !Hother by discriminate. split; reflexivity.
Defined.

Lemma main_system_exit_inv_witness :
  (403%Z ≠ 200%Z ∨ 200%Z ≠ 200%Z) ∧ files refused_run.2 = files (Scripted.start query_refused).
Proof.
  apply (@main_system_exit_inv (Scripted.platform query_refused)
           (Scripted.start query_refused)
           "Unable to retrieve report executions from the CrowdStrike API, check API key permissions."
           refused_run.2).
  vm_compute. reflexivity.
Defined.

Lemma main_returns_inv_witness :
  (List.length (calls whole_run.2) ≤ List.length (calls (Scripted.start two_done)) + 4)%nat ∧
  is_Some (files whole_run.2 !! "2024_01_03_ImageVulnerabilityAssessment.xlsx").
Proof.
  destruct (@main_returns_inv (Scripted.platform two_done) (Scripted.start two_done)
              whole_run.2) as (_ & _ & _ & Hlen & Hend).
  { vm_compute. reflexivity. }
  split; [exact Hlen|].
  destruct Hend as [Hlast|[Hfile _]]; [by vm_compute in Hlast|exact Hfile].
Defined.

End MoreRuns.
